(** * katepeh: the KTP recognition front end

    A shallow embedding of the React front end of the repository
    (types/ktp.ts, components/KTPDisplay.tsx, components/ImageUpload.tsx,
    components/ErrorBoundary.tsx and App.tsx) together with the properties
    its specification states about it.

    Components are embedded as what they compute: a render function from
    props and state to a small view type, and handlers as state
    transformers.  [handleUpload], which threads React state, HTTP requests
    and JavaScript exceptions through an async function, is written in an
    exception-over-state monad so that state written before a throw is
    kept, as it is in JavaScript. *)

From Stdlib Require Import String Ascii List ZArith Bool Lia.
From ExtLib Require Import Structures.Monad Structures.MonadState Structures.MonadExc.
From ExtLib Require Import Data.Monads.StateMonad Data.Monads.EitherMonad.
Import ListNotations.
Import MonadNotation.
Local Open Scope string_scope.
Local Open Scope list_scope.
Local Open Scope monad_scope.

(* ===================================================================== *)
(** * JavaScript values as the components use them *)
(* ===================================================================== *)

Module JS.

(** A property that may be absent: [None] is [undefined] (or [null]),
    [Some s] a string. *)
Definition value := option string.

(** Truthiness of such a value: [undefined], [null] and the empty string
    are falsy, every other string is truthy. *)
Definition truthy (v : value) : bool :=
  match v with
  | None => false
  | Some s => negb (s =? "")
  end.

(** [a || b]: the left operand when it is truthy, otherwise the right
    operand, whatever it is. *)
Definition or (a b : value) : value :=
  if truthy a then a else b.

(** [{v && <jsx/>}]: something is rendered only for a truthy [v]. *)
Definition guard (v : value) : option string :=
  if truthy v then v else None.

End JS.

(* ===================================================================== *)
(** * types/ktp.ts *)
(* ===================================================================== *)

Module KTP.

(** [export type Gender = 'LAKI-LAKI' | 'PEREMPUAN'] *)
Inductive Gender : Type := LAKI_LAKI | PEREMPUAN.

(** [export type BloodType = 'A' | 'B' | 'AB' | 'O' | '-'] *)
Inductive BloodType : Type := BT_A | BT_B | BT_AB | BT_O | BT_none.

(** The string literal each member of the union types stands for. *)
Definition gender_literal (g : Gender) : string :=
  match g with
  | LAKI_LAKI => "LAKI-LAKI"
  | PEREMPUAN => "PEREMPUAN"
  end.

Definition blood_type_literal (b : BloodType) : string :=
  match b with
  | BT_A => "A"
  | BT_B => "B"
  | BT_AB => "AB"
  | BT_O => "O"
  | BT_none => "-"
  end.

(** [export interface KTPData]: six required fields, six optional. *)
Record KTPData : Type := mkKTPData {
  nik : string;
  name : string;
  birth_place : string;
  birth_date : string;
  gender : Gender;
  address : string;
  blood_type : option BloodType;
  religion : option string;
  marital_status : option string;
  occupation : option string;
  nationality : option string;
  valid_until : option string
}.

(** [data[key as keyof KTPData]]: the value stored under a property
    name; [undefined] for an optional field that is absent and for a
    name that is not a field. *)
Definition field (data : KTPData) (key : string) : JS.value :=
  if key =? "nik" then Some (nik data)
  else if key =? "name" then Some (name data)
  else if key =? "birth_place" then Some (birth_place data)
  else if key =? "birth_date" then Some (birth_date data)
  else if key =? "gender" then Some (gender_literal (gender data))
  else if key =? "address" then Some (address data)
  else if key =? "blood_type" then option_map blood_type_literal (blood_type data)
  else if key =? "religion" then religion data
  else if key =? "marital_status" then marital_status data
  else if key =? "occupation" then occupation data
  else if key =? "nationality" then nationality data
  else if key =? "valid_until" then valid_until data
  else None.

(** The fixture of the KTPDisplay test suite ([mockKTPData]). *)
Definition mockKTPData : KTPData :=
  {| nik := "3173042504900001";
     name := "JOHN DOE";
     birth_place := "JAKARTA";
     birth_date := "1990-04-25";
     gender := LAKI_LAKI;
     address := "JL. KEBON JERUK RT 001 RW 002 KEL. KEMANGGISAN KEC. PALMERAH";
     blood_type := Some BT_O;
     religion := Some "ISLAM";
     marital_status := Some "KAWIN";
     occupation := Some "KARYAWAN SWASTA";
     nationality := Some "WNI";
     valid_until := Some "SEUMUR HIDUP" |}.

(** The second fixture of that suite ([partialData]): required fields
    only. *)
Definition partialData : KTPData :=
  {| nik := "3173042504900001";
     name := "JOHN DOE";
     birth_place := "JAKARTA";
     birth_date := "1990-04-25";
     gender := LAKI_LAKI;
     address := "JL. KEBON JERUK";
     blood_type := None;
     religion := None;
     marital_status := None;
     occupation := None;
     nationality := None;
     valid_until := None |}.

End KTP.

(* ===================================================================== *)
(** * components/KTPDisplay.tsx *)
(* ===================================================================== *)

Module KTPDisplay.
Import KTP.

(** The object literal [fieldLabels]; [Object.entries] lists its
    properties in the order they are written. *)
Definition fieldLabels : list (string * string) :=
  [ ("nik", "NIK");
    ("name", "Nama");
    ("birth_place", "Tempat Lahir");
    ("birth_date", "Tanggal Lahir");
    ("gender", "Jenis Kelamin");
    ("address", "Alamat");
    ("blood_type", "Golongan Darah");
    ("religion", "Agama");
    ("marital_status", "Status Perkawinan");
    ("occupation", "Pekerjaan");
    ("nationality", "Kewarganegaraan");
    ("valid_until", "Berlaku Hingga") ].

(** One [<div key=...>] of the definition list: its React key, the
    [<dt>] label, the [<dd>] value and the background class chosen from
    the parity of the entry's index. *)
Record Row : Type := mkRow {
  row_key : string;
  row_label : string;
  row_value : string;
  row_class : string
}.

(** The callback given to [map]: [null] for a falsy value, a row
    otherwise. *)
Definition entry (data : KTPData) (kl : string * string) (index : nat)
  : option Row :=
  let '(key, label) := kl in
  let value := field data key in
  match value with
  | Some v =>
      if JS.truthy value
      then Some {| row_key := key;
                   row_label := label;
                   row_value := v;
                   row_class := if Nat.even index then "bg-gray-50" else "bg-white" |}
      else None
  | None => None
  end.

(** [array.map((x, index) => f x index)], counting from [i]. *)
Fixpoint mapi {A B : Type} (f : A -> nat -> B) (i : nat) (l : list A) : list B :=
  match l with
  | [] => []
  | x :: l' => f x i :: mapi f (S i) l'
  end.

(** The array built inside [<dl>]: one element per entry, [null] kept. *)
Definition entries (data : KTPData) : list (option Row) :=
  mapi (entry data) 0 fieldLabels.

(** What React puts on the page for that array: the non-null elements,
    in order. *)
Fixpoint omit_null {A : Type} (l : list (option A)) : list A :=
  match l with
  | [] => []
  | Some x :: l' => x :: omit_null l'
  | None :: l' => omit_null l'
  end.

Definition rows (data : KTPData) : list Row := omit_null (entries data).

(** The rendered component: heading, rows and the reset button, whose
    click calls [onReset]. *)
Record View : Type := mkView {
  heading : string;
  shown : list Row;
  button : string
}.

Definition render (data : KTPData) : View :=
  {| heading := "Hasil Ekstraksi KTP";
     shown := rows data;
     button := "Proses KTP Lain" |}.

End KTPDisplay.

(* ===================================================================== *)
(** * components/ImageUpload.tsx *)
(* ===================================================================== *)

Module ImageUpload.

(** The properties of a browser [File] the component and its dropzone
    read. *)
Record File : Type := mkFile {
  file_name : string;
  file_type : string;
  file_size : Z
}.

(** An entry of a rejection's [errors] array. *)
Record FileError : Type := mkFileError {
  code : string;
  message : string
}.

(** An element of [rejectedFiles]. *)
Record FileRejection : Type := mkFileRejection {
  file : File;
  errors : list FileError
}.

(** [const MAX_FILE_SIZE = 10 * 1024 * 1024] *)
Definition MAX_FILE_SIZE : Z := 10 * 1024 * 1024.

Definition TOO_LARGE_MESSAGE : string :=
  "File is too large. Maximum size is 10MB.".

Definition INVALID_TYPE_MESSAGE : string :=
  "Invalid file type. Only JPG and PNG images are accepted.".

(** What one call of [onDrop] leaves behind: the value of the
    [validationError] state and the files [onUpload] was called with, in
    call order. *)
Record Dropped : Type := mkDropped {
  validationError : option string;
  uploaded : list File
}.

(** The message chosen for the first error of the first rejection. *)
Definition rejection_message (error : FileError) : string :=
  if code error =? "file-too-large" then TOO_LARGE_MESSAGE
  else if code error =? "file-invalid-type" then INVALID_TYPE_MESSAGE
  else message error.

(** [onDrop(acceptedFiles, rejectedFiles)].  [None] is the [TypeError]
    of reading [.code] of [undefined], raised when the first rejection
    carries an empty [errors] array. *)
Definition onDrop (acceptedFiles : list File) (rejectedFiles : list FileRejection)
  : option Dropped :=
  match rejectedFiles with
  | rejection :: _ =>
      match errors rejection with
      | error :: _ =>
          Some {| validationError := Some (rejection_message error);
                  uploaded := [] |}
      | [] => None
      end
  | [] =>
      match acceptedFiles with
      | file :: _ =>
          if (file_size file >? MAX_FILE_SIZE)%Z
          then Some {| validationError := Some TOO_LARGE_MESSAGE; uploaded := [] |}
          else Some {| validationError := None; uploaded := [file] |}
      | [] => Some {| validationError := None; uploaded := [] |}
      end
  end.

(** ** The dropzone the component is mounted on

    [useDropzone] is called with [accept] (two MIME types and their
    extensions), [maxFiles: 1], [multiple: false] and
    [maxSize: MAX_FILE_SIZE].  The hook belongs to react-dropzone; what
    follows is its sorting of a drop into accepted files and rejections
    under those options.  The test a file must pass for the [accept]
    option is a parameter of the model. *)
Section Dropzone.

Variable accepts : File -> bool.

Definition INVALID_TYPE : FileError :=
  {| code := "file-invalid-type";
     message := "File type must be one of image/jpeg, .jpg, .jpeg, image/png, .png" |}.

Definition TOO_LARGE : FileError :=
  {| code := "file-too-large";
     message := "File is larger than 10485760 bytes" |}.

Definition TOO_MANY_FILES : FileError :=
  {| code := "too-many-files"; message := "Too many files" |}.

(** The errors of one file: the type error first, then the size
    error. *)
Definition file_errors (f : File) : list FileError :=
  (if accepts f then [] else [INVALID_TYPE])
  ++ (if (file_size f >? MAX_FILE_SIZE)%Z then [TOO_LARGE] else []).

Definition passes (f : File) : bool :=
  match file_errors f with [] => true | _ => false end.

(** A drop of [files]: every file goes to one of the two lists; with
    [multiple: false], more than one passing file rejects them all. *)
Definition sort_drop (files : list File) : list File * list FileRejection :=
  let accepted := filter passes files in
  let rejected :=
    map (fun f => {| file := f; errors := file_errors f |})
        (filter (fun f => negb (passes f)) files) in
  if (1 <? length accepted)%nat
  then ([], rejected ++ map (fun f => {| file := f; errors := [TOO_MANY_FILES] |}) accepted)
  else (accepted, rejected).

(** Dropping [files] on the component. *)
Definition drop (files : list File) : option Dropped :=
  let '(acceptedFiles, rejectedFiles) := sort_drop files in
  onDrop acceptedFiles rejectedFiles.

End Dropzone.

(** ** The [accept] option

    The object literal passed as [accept]. *)
Definition accept : list (string * list string) :=
  [ ("image/jpeg", [".jpg"; ".jpeg"]);
    ("image/png", [".png"]) ].

(** The dropzone flattens it into one list of accepted types: each MIME
    type followed by its extensions. *)
Definition accept_attribute : list string :=
  flat_map (fun entry => fst entry :: snd entry) accept.

(** [toLowerCase] on the letters A to Z; names and types are taken as
    byte strings. *)
Definition lower (c : ascii) : ascii :=
  let n := nat_of_ascii c in
  if (65 <=? n)%nat && (n <=? 90)%nat then ascii_of_nat (n + 32) else c.

Fixpoint toLowerCase (s : string) : string :=
  match s with
  | EmptyString => EmptyString
  | String c s' => String (lower c) (toLowerCase s')
  end.

(** [s.endsWith(suffix)] *)
Definition endsWith (s suffix : string) : bool :=
  (String.length suffix <=? String.length s)%nat
  && (substring (String.length s - String.length suffix) (String.length suffix) s
      =? suffix).

(** [mimeType.replace(/\/.*$/, '')]: what stands before the first
    slash. *)
Definition base_type (s : string) : string :=
  match index 0 "/" s with
  | Some i => substring 0 i s
  | None => s
  end.

(** Whether a file matches one accepted type: an entry that starts with
    a dot is compared with the end of the lower-cased file name, an entry
    that ends in [/*] with the base of the lower-cased MIME type, any
    other entry with the lower-cased MIME type itself. *)
Definition matches (f : File) (validType : string) : bool :=
  if prefix "." validType
  then endsWith (toLowerCase (file_name f)) validType
  else if endsWith validType "/*"
       then base_type (toLowerCase (file_type f)) =? base_type validType
       else toLowerCase (file_type f) =? validType.

(** The test of the [accept] option as the dropzone applies it: a file
    passes when its type is the one Firefox gives to dragged files it
    cannot type, or when it matches some accepted type, by MIME type or
    by extension. *)
Definition accepts_image (f : File) : bool :=
  (file_type f =? "application/x-moz-file")
  || existsb (matches f) accept_attribute.

End ImageUpload.

(* ===================================================================== *)
(** * components/ErrorBoundary.tsx *)
(* ===================================================================== *)

Module ErrorBoundary.

(** A JavaScript [Error], as far as the boundary looks at it. *)
Record Error : Type := mkError { message : string }.

Record State : Type := mkState {
  hasError : bool;
  error : option Error
}.

Definition initialState : State := {| hasError := false; error := None |}.

Definition getDerivedStateFromError (e : Error) : State :=
  {| hasError := true; error := Some e |}.

(** The [onClick] of the "Try again" button. *)
Definition tryAgain (st : State) : State :=
  {| hasError := false; error := None |}.

(** What [render] returns: the fallback panel with its heading, its
    message and its button, or the children it was given. *)
Inductive View (C : Type) : Type :=
| Fallback (heading text button : string)
| Children (children : C).

Arguments Fallback {C} heading text button.
Arguments Children {C} children.

(** [this.state.error?.message || 'Something went wrong'] *)
Definition fallback_text (st : State) : string :=
  match JS.or (option_map message (error st)) (Some "Something went wrong") with
  | Some s => s
  | None => ""
  end.

Definition render {C : Type} (st : State) (children : C) : View C :=
  if hasError st
  then Fallback "An error occurred" (fallback_text st) "Try again"
  else Children children.

(** ** The boundary at work

    React renders the boundary, then what the boundary returned; when a
    descendant throws while rendering, React replaces the boundary's
    state by [getDerivedStateFromError] of the thrown error and renders
    the boundary again.  A child is given by what rendering it does:
    produce output or throw. *)
Section Mounted.

Variables (C V : Type).
Variable render_children : C -> V + Error.

Inductive Screen : Type :=
| ShowsFallback (text : string)
| ShowsChildren (output : V).

Definition paint (st : State) (children : C) : State * Screen :=
  match render st children with
  | Fallback _ text _ => (st, ShowsFallback text)
  | Children c =>
      match render_children c with
      | inl v => (st, ShowsChildren v)
      | inr e =>
          let st' := getDerivedStateFromError e in
          (st', ShowsFallback (fallback_text st'))
      end
  end.

End Mounted.

Arguments ShowsFallback {V} text.
Arguments ShowsChildren {V} output.
Arguments paint {C V} render_children st children.

End ErrorBoundary.

(* ===================================================================== *)
(** * App.tsx *)
(* ===================================================================== *)

Module App.
Import KTP.

Definition File := ImageUpload.File.

(** ** Requests and what axios makes of their outcome *)

(** [FormData]: the appended (name, value) pairs, in order. *)
Definition FormData := list (string * File).

Record Request : Type := mkRequest {
  method : string;
  url : string;
  payload : FormData
}.

(** The [detail] member of an error body: a text, or an object that may
    have an [error] member. *)
Inductive Detail : Type :=
| DetailText (text : string)
| DetailObject (error : JS.value).

(** The members of a response body the handler reads. *)
Record Body : Type := mkBody {
  body_error : JS.value;
  body_detail : option Detail;
  ktp_data : option KTPData
}.

(** A response; [data] is [None] when the body is [null]. *)
Record Response : Type := mkResponse { data : option Body }.

(** An [AxiosError]: [response] is absent when no answer was received. *)
Record AxiosError : Type := mkAxiosError {
  response : option Response;
  message : string
}.

(** What a [catch] clause can receive. *)
Inductive Thrown : Type :=
| Axios (e : AxiosError)
| Other (description : string).

(** How the promise returned by [axios.post] settles. *)
Inductive Settlement : Type :=
| Resolved (r : Response)
| Rejected (t : Thrown).

(** ** The four [useState] cells *)

Record State : Type := mkState {
  ktpData : option KTPData;
  loading : bool;
  error : option string;
  imagePreview : option string
}.

Definition initialState : State :=
  {| ktpData := None; loading := false; error := None; imagePreview := None |}.

(** ** The world an upload runs in

    Besides the component state: the [FileReader] reads still in flight
    (each with the [result] it will end with) and the log of what has
    happened, oldest first. *)

Inductive Event : Type :=
| Sent (r : Request)
| Settled (r : Request) (ok : bool)
| ConsoleError (label : string) (t : Thrown).

Record World : Type := mkWorld {
  app : State;
  reading : list (option string);
  events : list Event
}.

Definition on_state (f : State -> State) (w : World) : World :=
  {| app := f (app w); reading := reading w; events := events w |}.

Definition log (e : Event) (w : World) : World :=
  {| app := app w; reading := reading w; events := events w ++ [e] |}.

Definition start_reading (r : option string) (w : World) : World :=
  {| app := app w; reading := reading w ++ [r]; events := events w |}.

Definition set_ktpData (v : option KTPData) (s : State) : State :=
  {| ktpData := v; loading := loading s; error := error s;
     imagePreview := imagePreview s |}.

Definition set_loading (v : bool) (s : State) : State :=
  {| ktpData := ktpData s; loading := v; error := error s;
     imagePreview := imagePreview s |}.

Definition set_error (v : option string) (s : State) : State :=
  {| ktpData := ktpData s; loading := loading s; error := v;
     imagePreview := imagePreview s |}.

Definition set_imagePreview (v : option string) (s : State) : State :=
  {| ktpData := ktpData s; loading := loading s; error := error s;
     imagePreview := v |}.

(** [reader.onloadend] of every read in flight, oldest first: each calls
    [setImagePreview(reader.result)]. *)
Definition loadend (w : World) : World :=
  {| app := fold_left (fun s r => set_imagePreview r s) (reading w) (app w);
     reading := [];
     events := events w |}.

(** ** Async code: exceptions over state *)

Abbreviation Async := (eitherT Thrown (state World)).

Definition run {A : Type} (c : Async A) (w : World) : (Thrown + A) * World :=
  runState (unEitherT c) w.

Definition update (f : World -> World) : Async unit :=
  w <- get ;; put (f w).

(** [try { body } finally { fin }]: [fin] always runs; the outcome is
    that of [body] unless [fin] throws. *)
Definition try_finally {A : Type} (body : Async A) (fin : Async unit) : Async A :=
  mkEitherT (r <- unEitherT body ;;
             f <- unEitherT fin ;;
             ret match f with
                 | inl t => inl t
                 | inr _ => r
                 end).

Definition setKtpData (v : option KTPData) : Async unit :=
  update (on_state (set_ktpData v)).
Definition setLoading (v : bool) : Async unit :=
  update (on_state (set_loading v)).
Definition setError (v : option string) : Async unit :=
  update (on_state (set_error v)).
Definition setImagePreview (v : option string) : Async unit :=
  update (on_state (set_imagePreview v)).

Definition console_error (label : string) (t : Thrown) : Async unit :=
  update (log (ConsoleError label t)).

(** [err.response?.data?.error] *)
Definition response_error (e : AxiosError) : JS.value :=
  match response e with
  | Some r =>
      match data r with
      | Some b => body_error b
      | None => None
      end
  | None => None
  end.

(** [err.response?.data?.detail?.error]; a text has no such member. *)
Definition response_detail_error (e : AxiosError) : JS.value :=
  match response e with
  | Some r =>
      match data r with
      | Some b =>
          match body_detail b with
          | Some (DetailObject v) => v
          | Some (DetailText _) => None
          | None => None
          end
      | None => None
      end
  | None => None
  end.

(** [err.response?.data?.error || err.response?.data?.detail?.error
     || err.message] *)
Definition errorMessage (e : AxiosError) : JS.value :=
  JS.or (JS.or (response_error e) (response_detail_error e)) (Some (message e)).

Definition FALLBACK_MESSAGE : string :=
  "Failed to process KTP image. Please try again.".

Section Environment.

(** [import.meta.env.VITE_API_URL] *)
Variable API_URL : string.

(** The network: how the promise of each request settles. *)
Variable net : Request -> Settlement.

(** What reading a file as a data URL ends with ([None]: the read
    failed and [reader.result] is [null]). *)
Variable dataURL : File -> option string.

(** The scheduler: whether the reads in flight end while the handler
    is suspended on a given request.  Reads that do not end there end
    after the handler has returned. *)
Variable loadend_during : Request -> bool.

(** [await axios.post(url, formData)] *)
Definition post (url : string) (formData : FormData) : Async Response :=
  let request := {| method := "POST"; url := url; payload := formData |} in
  update (log (Sent request)) ;;
  (if loadend_during request then update loadend else ret tt) ;;
  match net request with
  | Resolved r => update (log (Settled request true)) ;; ret r
  | Rejected t => update (log (Settled request false)) ;; raise t
  end.

(** [extractResponse.data.ktp_data]: a [TypeError] when [data] is
    [null]. *)
Definition data_ktp_data (r : Response) : Async (option KTPData) :=
  match data r with
  | Some b => ret (ktp_data b)
  | None => raise (Other "TypeError")
  end.

Definition handleUpload (file : File) : Async unit :=
  try_finally
    (catch
       (setLoading true ;;
        setError None ;;
        update (start_reading (dataURL file)) ;;
        let formData := [("file", file)] in
        _ <- post (API_URL ++ "/upload") formData ;;
        extractResponse <- post (API_URL ++ "/extract") formData ;;
        v <- data_ktp_data extractResponse ;;
        setKtpData v)
       (fun err =>
          setImagePreview None ;;
          match err with
          | Axios e => setError (errorMessage e)
          | Other _ => setError (Some FALLBACK_MESSAGE)
          end ;;
          console_error "Error processing KTP:" err))
    (setLoading false).

End Environment.

Definition handleReset (s : State) : State :=
  set_imagePreview None (set_error None (set_ktpData None s)).

(** ** What [App] renders *)

Inductive Panel : Type :=
| LoadingPanel
| KTPPanel (display : KTPDisplay.View)
| UploadPanel (preview : option string).

Record Page : Type := mkPage {
  title : string;
  panel : Panel;
  errorBox : option string
}.

(** The children [App] hands to its [ErrorBoundary]. *)
Definition page (s : State) : Page :=
  {| title := "Indonesian KTP Recognition";
     panel := if loading s then LoadingPanel
              else match ktpData s with
                   | Some d => KTPPanel (KTPDisplay.render d)
                   | None => UploadPanel (JS.guard (imagePreview s))
                   end;
     errorBox := JS.guard (error s) |}.

(** [App] under its boundary. *)
Definition render (boundary : ErrorBoundary.State) (s : State)
  : ErrorBoundary.View Page :=
  ErrorBoundary.render boundary (page s).

(** The record on display, if any. *)
Definition displayed (s : State) : option KTPData :=
  if loading s then None else ktpData s.

(** ** [<ImageUpload onUpload={handleUpload} />] *)

Section Wiring.

Variable API_URL : string.
Variable net : Request -> Settlement.
Variable dataURL : File -> option string.
Variable loadend_during : Request -> bool.

(** The test of the dropzone's [accept] option, as in [ImageUpload]. *)
Variable accepts : File -> bool.

(** Each call [onUpload(file)] made by [onDrop] is a call of
    [handleUpload]. *)
Fixpoint onUpload_calls (files : list File) : Async unit :=
  match files with
  | [] => ret tt
  | file :: rest =>
      handleUpload API_URL net dataURL loadend_during file ;;
      onUpload_calls rest
  end.

(** A drop on the mounted form: the form's own [validationError]
    afterwards ([None] at the outside: [onDrop] threw) and the world the
    calls of [onUpload] leave. *)
Definition drop_on_form (files : list File) (w : World)
  : option (option string) * World :=
  match ImageUpload.drop accepts files with
  | Some d =>
      (Some (ImageUpload.validationError d),
       snd (run (onUpload_calls (ImageUpload.uploaded d)) w))
  | None => (None, w)
  end.

End Wiring.

End App.

(* ===================================================================== *)
(** * The server behind the two endpoints *)
(* ===================================================================== *)

Module Backend.
Import KTP.

Definition is_digit (c : ascii) : bool :=
  (48 <=? nat_of_ascii c)%nat && (nat_of_ascii c <=? 57)%nat.

(** Modelled from the spec: the server-side check of the NIK field,
    whose code is not part of the front end.  The specification gives
    it as "NIK must match [^\d{16}$]" and "16-digit numeric string":
    exactly sixteen characters, each a decimal digit. *)
Definition nik_valid (s : string) : bool :=
  (String.length s =? 16)%nat && forallb is_digit (list_ascii_of_string s).

(** Modelled from the spec: the server-side check of the birth date,
    whose code is not part of the front end.  The specification gives
    the field as "[birth_date] (DD-MM-YYYY)" and names "regex/format
    checks on extracted fields (NIK, dates, enums)": two digits, a
    hyphen, two digits, a hyphen, four digits, and nothing else. *)
Definition birth_date_valid (s : string) : bool :=
  match list_ascii_of_string s with
  | [d1; d2; h1; m1; m2; h2; y1; y2; y3; y4] =>
      is_digit d1 && is_digit d2
      && Ascii.eqb h1 "-"
      && is_digit m1 && is_digit m2
      && Ascii.eqb h2 "-"
      && is_digit y1 && is_digit y2 && is_digit y3 && is_digit y4
  | _ => false
  end.

Section Server.

Variable API_URL : string.

(** What the recognition pipeline reads off the image of a request. *)
Variable recognise : App.Request -> KTPData.

(** The HTTP error a refused request is answered with. *)
Variable refusal : App.Request -> App.AxiosError.

(** Modelled from the spec: "Accepted image types: JPEG, PNG, max
    10MB", as the server checks it on the MIME type of the part. *)
Definition image_ok (f : ImageUpload.File) : bool :=
  ((ImageUpload.file_type f =? "image/jpeg")
   || (ImageUpload.file_type f =? "image/png"))
  && (ImageUpload.file_size f <=? ImageUpload.MAX_FILE_SIZE)%Z.

Definition acknowledgment : App.Response :=
  {| App.data := Some {| App.body_error := None;
                         App.body_detail := None;
                         App.ktp_data := None |} |}.

(** Modelled from the spec: [POST /api/upload], whose code is not part
    of the front end: "multipart image, returns acknowledgment";
    "Upload rejects files >10MB or non-JPEG/PNG". *)
Definition upload (request : App.Request) : App.Settlement :=
  if forallb (fun part => image_ok (snd part)) (App.payload request)
  then App.Resolved acknowledgment
  else App.Rejected (App.Axios (refusal request)).

(** Modelled from the spec: [POST /api/extract], whose code is not
    part of the front end: "multipart image, returns
    [{ktp_data: KTPRecord}]"; a malformed field surfaces "as HTTP
    error responses with a message". *)
Definition extract (request : App.Request) : App.Settlement :=
  let record := recognise request in
  if nik_valid (nik record) && birth_date_valid (birth_date record)
  then App.Resolved {| App.data := Some {| App.body_error := None;
                                           App.body_detail := None;
                                           App.ktp_data := Some record |} |}
  else App.Rejected (App.Axios (refusal request)).

(** Modelled from the spec: the routes of section 6 that the front
    end posts to; any other request is answered with an error. *)
Definition serve (request : App.Request) : App.Settlement :=
  if App.url request =? API_URL ++ "/upload" then upload request
  else if App.url request =? API_URL ++ "/extract" then extract request
  else App.Rejected (App.Axios (refusal request)).

End Server.

End Backend.


(* ===================================================================== *)
(** * The front end against that server *)
(* ===================================================================== *)

Module System.
Import App.

Section Sessions.

Variable API_URL : string.
Variable recognise : Request -> KTP.KTPData.
Variable refusal : Request -> AxiosError.

(** One thing that can happen to the page: a file is handed to
    [handleUpload] and the handler runs to its end against the server,
    "Proses KTP Lain" is clicked, or the file reads still in flight
    end. *)
Inductive step : World -> World -> Prop :=
| step_upload (w : World) (file : File) (dataURL : File -> option string)
              (loadend_during : Request -> bool) :
    step w (snd (run (handleUpload API_URL
                        (Backend.serve API_URL recognise refusal)
                        dataURL loadend_during file) w))
| step_reset (w : World) :
    step w (on_state handleReset w)
| step_loadend (w : World) :
    step w (loadend w).

(** The worlds a session can be in, from the freshly mounted page. *)
Inductive reachable : World -> Prop :=
| reachable_mounted :
    reachable {| app := initialState; reading := []; events := [] |}
| reachable_step (w w' : World) :
    reachable w -> step w w' -> reachable w'.

End Sessions.

End System.

(* ===================================================================== *)
(** * Properties of KTPDisplay *)
(* ===================================================================== *)

Section KTPDisplayFacts.
Import KTP KTPDisplay.

Lemma In_omit_null (A : Type) (x : A) (l : list (option A)) :
  In x (omit_null l) <-> In (Some x) l.
Proof.
  induction l as [|[y|] l IH]; simpl.
  - tauto.
  - rewrite IH. split; intros [H|H]; auto; left; congruence.
  - rewrite IH. split; [auto | intros [H|H]; [discriminate | exact H]].
Qed.

Lemma In_mapi (A B : Type) (f : A -> nat -> B) (l : list A) (i : nat) (y : B) :
  In y (mapi f i l) <->
  exists x j, nth_error l j = Some x /\ y = f x (i + j).
Proof.
  revert i. induction l as [|a l IH]; intros i; simpl.
  - split; [tauto | intros (x & [|j] & H & _); discriminate].
  - rewrite IH. split.
    + intros [H | (x & j & Hj & Hy)].
      * exists a, 0. rewrite Nat.add_0_r. auto.
      * exists x, (S j). rewrite Nat.add_succ_r. auto.
    + intros (x & [|j] & Hj & Hy); simpl in Hj.
      * left. injection Hj as ->. rewrite Nat.add_0_r in Hy. auto.
      * right. exists x, j. rewrite Nat.add_succ_r in Hy. auto.
Qed.

(** A row is on the page exactly when some entry of [fieldLabels]
    produced it. *)
Lemma In_rows (data : KTPData) (r : Row) :
  In r (rows data) <->
  exists kl j, nth_error fieldLabels j = Some kl /\ entry data kl j = Some r.
Proof.
  unfold rows, entries. rewrite In_omit_null, In_mapi. simpl.
  split; intros (kl & j & H1 & H2); exists kl, j; auto.
Qed.

Lemma entry_Some (data : KTPData) (key label : string) (j : nat) (r : Row) :
  entry data (key, label) j = Some r ->
  row_key r = key /\ row_label r = label
  /\ field data key = Some (row_value r)
  /\ JS.truthy (field data key) = true.
Proof.
  unfold entry. destruct (field data key) as [v|] eqn:E; [|discriminate].
  destruct (JS.truthy (Some v)) eqn:T; [|discriminate].
  intros H. injection H as <-. simpl. auto.
Qed.

Lemma entry_truthy (data : KTPData) (key label : string) (j : nat) :
  JS.truthy (field data key) = true ->
  exists r, entry data (key, label) j = Some r
            /\ row_key r = key /\ row_label r = label
            /\ field data key = Some (row_value r).
Proof.
  intros T. unfold entry. destruct (field data key) as [v|] eqn:E.
  - rewrite T. eexists. split; [reflexivity | simpl; auto].
  - discriminate.
Qed.

End KTPDisplayFacts.

(** C8. For every record and every one of the twelve fields, KTPDisplay
    shows a row carrying that field's label and value if and only if the
    value is truthy; every row shown comes from one of the twelve fields;
    and a field whose value is falsy, be it a required field holding the
    empty string or an optional field that is absent, has no row at all. *)
Theorem KTPDisplay_row_iff_truthy :
  forall data : KTP.KTPData,
    map fst KTPDisplay.fieldLabels =
      [ "nik"; "name"; "birth_place"; "birth_date"; "gender"; "address";
        "blood_type"; "religion"; "marital_status"; "occupation";
        "nationality"; "valid_until" ]
    /\ (forall key label,
          In (key, label) KTPDisplay.fieldLabels ->
          ((exists r, In r (KTPDisplay.shown (KTPDisplay.render data))
                      /\ KTPDisplay.row_key r = key
                      /\ KTPDisplay.row_label r = label
                      /\ KTP.field data key = Some (KTPDisplay.row_value r))
           <-> JS.truthy (KTP.field data key) = true))
    /\ (forall r, In r (KTPDisplay.shown (KTPDisplay.render data)) ->
                  In (KTPDisplay.row_key r, KTPDisplay.row_label r)
                     KTPDisplay.fieldLabels)
    /\ (forall key,
          KTP.field data key = Some "" \/ KTP.field data key = None ->
          forall r, In r (KTPDisplay.shown (KTPDisplay.render data)) ->
                    KTPDisplay.row_key r <> key).
Proof.
  intros data. split; [reflexivity|]. simpl KTPDisplay.shown.
  split; [|split].
  - intros key label Hin. split.
    + intros (r & Hr & Hk & _ & _).
      apply In_rows in Hr. destruct Hr as ([k l] & j & _ & He).
      apply entry_Some in He. destruct He as (Hk' & _ & _ & T).
      rewrite <- Hk, Hk'. exact T.
    + intros T. apply In_nth_error in Hin. destruct Hin as (j & Hj).
      destruct (entry_truthy data key label j T) as (r & He & Hr).
      exists r. split; [|exact Hr].
      apply In_rows. exists (key, label), j. auto.
  - intros r Hr. apply In_rows in Hr. destruct Hr as ([k l] & j & Hj & He).
    apply entry_Some in He. destruct He as (-> & -> & _).
    eapply nth_error_In. exact Hj.
  - intros key Hfalsy r Hr Hk.
    apply In_rows in Hr. destruct Hr as ([k l] & j & _ & He).
    apply entry_Some in He. destruct He as (Hk' & _ & _ & T).
    rewrite <- Hk', Hk in T.
    destruct Hfalsy as [E|E]; rewrite E in T; discriminate T.
Qed.

(** The theorem at the fixture with the required fields only, after its
    name has been blanked: the name row is gone, like the religion row. *)
Lemma KTPDisplay_row_iff_truthy_witness :
  let data :=
    {| KTP.nik := "3173042504900001"; KTP.name := ""; KTP.birth_place := "JAKARTA";
       KTP.birth_date := "1990-04-25"; KTP.gender := KTP.LAKI_LAKI;
       KTP.address := "JL. KEBON JERUK"; KTP.blood_type := None;
       KTP.religion := None; KTP.marital_status := None; KTP.occupation := None;
       KTP.nationality := None; KTP.valid_until := None |} in
  (exists r, In r (KTPDisplay.shown (KTPDisplay.render data))
             /\ KTPDisplay.row_key r = "nik"
             /\ KTPDisplay.row_label r = "NIK"
             /\ KTP.field data "nik" = Some (KTPDisplay.row_value r))
  /\ (forall r, In r (KTPDisplay.shown (KTPDisplay.render data)) ->
                KTPDisplay.row_key r <> "name")
  /\ (forall r, In r (KTPDisplay.shown (KTPDisplay.render data)) ->
                KTPDisplay.row_key r <> "religion").
Proof.
  intros data.
  destruct (KTPDisplay_row_iff_truthy data) as (_ & Hiff & _ & Hnone).
  split; [|split].
  - apply (Hiff "nik" "NIK"); [simpl; auto | reflexivity].
  - apply (Hnone "name"). left. reflexivity.
  - apply (Hnone "religion"). right. reflexivity.
Defined.

(* ===================================================================== *)
(** * Properties of the record type *)
(* ===================================================================== *)

(** C6. The gender of every record is one of the two literals of the
    [Gender] type: the literals are ['LAKI-LAKI'] and ['PEREMPUAN'] and no
    other, they differ, and the gender row KTPDisplay shows carries one of
    them. *)
Theorem gender_one_of_two_literals :
  forall data : KTP.KTPData,
    (KTP.gender_literal (KTP.gender data) = "LAKI-LAKI"
     \/ KTP.gender_literal (KTP.gender data) = "PEREMPUAN")
    /\ (forall s, (exists g, KTP.gender_literal g = s)
                  <-> (s = "LAKI-LAKI" \/ s = "PEREMPUAN"))
    /\ KTP.gender_literal KTP.LAKI_LAKI <> KTP.gender_literal KTP.PEREMPUAN
    /\ KTP.field data "gender" = Some (KTP.gender_literal (KTP.gender data))
    /\ (exists r, In r (KTPDisplay.rows data)
                  /\ KTPDisplay.row_label r = "Jenis Kelamin"
                  /\ (KTPDisplay.row_value r = "LAKI-LAKI"
                      \/ KTPDisplay.row_value r = "PEREMPUAN")).
Proof.
  intros data. split; [|split; [|split; [|split]]].
  - destruct (KTP.gender data); simpl; auto.
  - intros s. split.
    + intros [[|] <-]; simpl; auto.
    + intros [-> | ->]; [exists KTP.LAKI_LAKI | exists KTP.PEREMPUAN]; reflexivity.
  - discriminate.
  - reflexivity.
  - assert (T : JS.truthy (KTP.field data "gender") = true)
      by (simpl; destruct (KTP.gender data); reflexivity).
    destruct (entry_truthy data "gender" "Jenis Kelamin" 4 T) as (r & He & _ & Hl & Hv).
    exists r. split; [|split; [exact Hl|]].
    + apply In_rows. exists ("gender", "Jenis Kelamin"), 4. auto.
    + simpl in Hv. injection Hv as Hv. rewrite <- Hv.
      destruct (KTP.gender data); simpl; auto.
Qed.

(** The fixture of the KTPDisplay tests is handed to the component
    directly; its birth date is written year first, which the server's
    date check would not let through, and KTPDisplay shows it as it
    is. *)
Remark mock_birth_date_is_not_dd_mm_yyyy :
  KTP.birth_date KTP.mockKTPData = "1990-04-25"
  /\ Backend.birth_date_valid (KTP.birth_date KTP.mockKTPData) = false
  /\ In {| KTPDisplay.row_key := "birth_date";
           KTPDisplay.row_label := "Tanggal Lahir";
           KTPDisplay.row_value := "1990-04-25";
           KTPDisplay.row_class := "bg-white" |}
        (KTPDisplay.shown (KTPDisplay.render KTP.mockKTPData)).
Proof.
  split; [reflexivity | split; [reflexivity |]].
  vm_compute. tauto.
Qed.

(** KTPDisplay does not look into the birth date: whatever its format,
    it is shown unchanged in the row labelled "Tanggal Lahir" whenever
    it is not empty, and there is no such row when it is empty. *)
Lemma birth_date_shown_unchanged :
  forall data : KTP.KTPData,
    (KTP.birth_date data <> "" ->
     In {| KTPDisplay.row_key := "birth_date";
           KTPDisplay.row_label := "Tanggal Lahir";
           KTPDisplay.row_value := KTP.birth_date data;
           KTPDisplay.row_class := "bg-white" |}
        (KTPDisplay.shown (KTPDisplay.render data)))
    /\ (forall r, In r (KTPDisplay.shown (KTPDisplay.render data)) ->
                  KTPDisplay.row_key r = "birth_date" ->
                  KTPDisplay.row_value r = KTP.birth_date data
                  /\ KTP.birth_date data <> "").
Proof.
  intros data. simpl KTPDisplay.shown. split.
  - intros Hne. apply In_rows. exists ("birth_date", "Tanggal Lahir"), 3.
    split; [reflexivity|].
    unfold KTPDisplay.entry. simpl.
    destruct (String.eqb_spec (KTP.birth_date data) ""); [contradiction | reflexivity].
  - intros r Hr Hk. apply In_rows in Hr. destruct Hr as ([k l] & j & _ & He).
    apply entry_Some in He. destruct He as (Hk' & _ & Hv & T).
    rewrite <- Hk', Hk in Hv, T. simpl in Hv, T.
    injection Hv as Hv. split; [congruence|].
    intros E. rewrite E in T. discriminate T.
Qed.

Lemma birth_date_shown_unchanged_witness :
  In {| KTPDisplay.row_key := "birth_date";
        KTPDisplay.row_label := "Tanggal Lahir";
        KTPDisplay.row_value := "1990-04-25";
        KTPDisplay.row_class := "bg-white" |}
     (KTPDisplay.shown (KTPDisplay.render KTP.partialData)).
Proof.
  apply (proj1 (birth_date_shown_unchanged KTP.partialData)).
  simpl. discriminate.
Defined.

(* ===================================================================== *)
(** * Properties of ErrorBoundary *)
(* ===================================================================== *)

(** C10. When a descendant throws an error while rendering, the boundary
    shows its fallback with that error's message, or "Something went
    wrong" when the message is empty, and not its children; "Try again"
    puts the state back to [hasError = false], [error = null], after which
    the children are rendered again; and as long as nothing has been
    caught the boundary returns its children unchanged. *)
Theorem ErrorBoundary_fallback_and_retry :
  forall (C V : Type) (render_children : C -> V + ErrorBoundary.Error)
         (children : C),
    (* nothing caught: the children, unchanged *)
    ErrorBoundary.render ErrorBoundary.initialState children
      = ErrorBoundary.Children children
    /\ (forall st, ErrorBoundary.hasError st = false ->
                   ErrorBoundary.render st children = ErrorBoundary.Children children)
    (* a descendant throws: the fallback, with the message *)
    /\ (forall st e,
          ErrorBoundary.hasError st = false ->
          render_children children = inr e ->
          ErrorBoundary.paint render_children st children
            = (ErrorBoundary.getDerivedStateFromError e,
               ErrorBoundary.ShowsFallback
                 (if ErrorBoundary.message e =? "" then "Something went wrong"
                  else ErrorBoundary.message e)))
    /\ (forall e,
          ErrorBoundary.render (ErrorBoundary.getDerivedStateFromError e) children
            = ErrorBoundary.Fallback "An error occurred"
                (if ErrorBoundary.message e =? "" then "Something went wrong"
                 else ErrorBoundary.message e)
                "Try again")
    (* Try again: state reset, children rendered again *)
    /\ (forall st,
          ErrorBoundary.tryAgain st
            = {| ErrorBoundary.hasError := false; ErrorBoundary.error := None |}
          /\ ErrorBoundary.render (ErrorBoundary.tryAgain st) children
             = ErrorBoundary.Children children
          /\ (forall v, render_children children = inl v ->
                        ErrorBoundary.paint render_children
                          (ErrorBoundary.tryAgain st) children
                        = (ErrorBoundary.tryAgain st, ErrorBoundary.ShowsChildren v))).
Proof.
  intros C V render_children children.
  assert (Htext : forall e,
             ErrorBoundary.fallback_text (ErrorBoundary.getDerivedStateFromError e)
             = if ErrorBoundary.message e =? "" then "Something went wrong"
               else ErrorBoundary.message e).
  { intros [m]. unfold ErrorBoundary.fallback_text, JS.or. simpl.
    destruct (m =? ""); reflexivity. }
  split; [reflexivity|]. split; [|split; [|split]].
  - intros st H. unfold ErrorBoundary.render. rewrite H. reflexivity.
  - intros st e H Hthrow. unfold ErrorBoundary.paint, ErrorBoundary.render.
    rewrite H, Hthrow, Htext. reflexivity.
  - intros e. unfold ErrorBoundary.render. simpl. rewrite Htext. reflexivity.
  - intros st. split; [reflexivity | split; [reflexivity|]].
    intros v Hv. unfold ErrorBoundary.paint. simpl. rewrite Hv. reflexivity.
Qed.

(** The theorem on the component of the boundary's test suite, which
    throws "Test error" when asked to and renders "Normal content"
    otherwise. *)
Lemma ErrorBoundary_fallback_and_retry_witness :
  let ErrorComponent (shouldThrow : bool) : string + ErrorBoundary.Error :=
    if shouldThrow then inr {| ErrorBoundary.message := "Test error" |}
    else inl "Normal content" in
  ErrorBoundary.paint ErrorComponent ErrorBoundary.initialState true
    = ({| ErrorBoundary.hasError := true;
          ErrorBoundary.error := Some {| ErrorBoundary.message := "Test error" |} |},
       ErrorBoundary.ShowsFallback "Test error")
  /\ ErrorBoundary.paint ErrorComponent
       (ErrorBoundary.tryAgain
          (ErrorBoundary.getDerivedStateFromError
             {| ErrorBoundary.message := "Test error" |})) false
     = (ErrorBoundary.initialState, ErrorBoundary.ShowsChildren "Normal content").
Proof.
  intros ErrorComponent. split.
  - destruct (ErrorBoundary_fallback_and_retry bool string ErrorComponent true)
      as (_ & _ & H & _).
    apply (H ErrorBoundary.initialState {| ErrorBoundary.message := "Test error" |});
      reflexivity.
  - destruct (ErrorBoundary_fallback_and_retry bool string ErrorComponent false)
      as (_ & _ & _ & _ & H).
    destruct (H (ErrorBoundary.getDerivedStateFromError
                   {| ErrorBoundary.message := "Test error" |})) as (_ & _ & H').
    apply H'. reflexivity.
Defined.

(* ===================================================================== *)
(** * Properties of ImageUpload *)
(* ===================================================================== *)

Section ImageUploadFacts.
Import ImageUpload.

Variable accepts : File -> bool.

Lemma passes_iff (f : File) :
  passes accepts f = accepts f && (file_size f <=? MAX_FILE_SIZE)%Z.
Proof.
  unfold passes, file_errors.
  destruct (accepts f); simpl; [|reflexivity].
  rewrite Z.gtb_ltb, Z.ltb_antisym.
  destruct (file_size f <=? MAX_FILE_SIZE)%Z; reflexivity.
Qed.

(** A file that does not pass has at least one error, and its first
    error is the type error whenever its type is refused. *)
Lemma file_errors_first (f : File) :
  passes accepts f = false ->
  exists error rest,
    file_errors accepts f = error :: rest
    /\ rejection_message error
       = if accepts f then TOO_LARGE_MESSAGE else INVALID_TYPE_MESSAGE.
Proof.
  unfold passes, file_errors.
  destruct (accepts f); simpl.
  - destruct (file_size f >? MAX_FILE_SIZE)%Z; [|discriminate].
    intros _. eexists _, _. split; reflexivity.
  - intros _. eexists _, _. split; reflexivity.
Qed.

(** One file dropped alone. *)
Lemma drop_single (f : File) :
  drop accepts [f]
  = Some (if accepts f
          then if (file_size f >? MAX_FILE_SIZE)%Z
               then {| validationError := Some TOO_LARGE_MESSAGE; uploaded := [] |}
               else {| validationError := None; uploaded := [f] |}
          else {| validationError := Some INVALID_TYPE_MESSAGE; uploaded := [] |}).
Proof.
  unfold drop, sort_drop. simpl.
  destruct (passes accepts f) eqn:P; simpl.
  - rewrite passes_iff in P. apply andb_prop in P. destruct P as [Ha Hs].
    rewrite Ha, Z.gtb_ltb, Z.ltb_antisym, Hs. reflexivity.
  - destruct (file_errors_first f P) as (error & rest & -> & Hm).
    rewrite Hm. destruct (accepts f) eqn:Ha; [|reflexivity].
    rewrite passes_iff, Ha in P. simpl in P.
    rewrite Z.gtb_ltb, Z.ltb_antisym, P. reflexivity.
Qed.

Lemma filter_split_length (A : Type) (p : A -> bool) (l : list A) :
  length (filter p l) + length (filter (fun x => negb (p x)) l) = length l.
Proof.
  induction l as [|a l IH]; simpl; [reflexivity|].
  destruct (p a); simpl; lia.
Qed.

(** Several files dropped together. *)
Lemma drop_several (files : list File) :
  2 <= length files ->
  exists text,
    drop accepts files = Some {| validationError := Some text; uploaded := [] |}.
Proof.
  intros Hlen. unfold drop, sort_drop.
  pose proof (filter_split_length File (passes accepts) files) as Hsplit.
  destruct (filter (fun f => negb (passes accepts f)) files) as [|g gs] eqn:Hrej.
  - (* every file passes: there are too many of them *)
    simpl in Hsplit.
    destruct (filter (passes accepts) files) as [|a [|b l]] eqn:Hacc;
      simpl in Hsplit; try lia.
    simpl. eexists. reflexivity.
  - (* some file is refused: its errors come first *)
    assert (Hg : passes accepts g = false).
    { assert (Hin : In g (filter (fun f => negb (passes accepts f)) files))
        by (rewrite Hrej; left; reflexivity).
      apply filter_In in Hin. destruct Hin as [_ Hin].
      destruct (passes accepts g); [discriminate | reflexivity]. }
    destruct (file_errors_first g Hg) as (error & more & He & _).
    destruct (1 <? length (filter (passes accepts) files))%nat; simpl;
      rewrite He; eexists; reflexivity.
Qed.

End ImageUploadFacts.

(** What the [accept] option of the component lets through, spelled
    out: the Firefox type, one of the two MIME types, or a file name
    ending in one of the three extensions, letter case apart. *)
Lemma accepts_image_iff (f : ImageUpload.File) :
  ImageUpload.accepts_image f = true <->
  ImageUpload.file_type f = "application/x-moz-file"
  \/ ImageUpload.toLowerCase (ImageUpload.file_type f) = "image/jpeg"
  \/ ImageUpload.toLowerCase (ImageUpload.file_type f) = "image/png"
  \/ ImageUpload.endsWith (ImageUpload.toLowerCase (ImageUpload.file_name f)) ".jpg" = true
  \/ ImageUpload.endsWith (ImageUpload.toLowerCase (ImageUpload.file_name f)) ".jpeg" = true
  \/ ImageUpload.endsWith (ImageUpload.toLowerCase (ImageUpload.file_name f)) ".png" = true.
Proof.
  unfold ImageUpload.accepts_image.
  change (existsb (ImageUpload.matches f) ImageUpload.accept_attribute)
    with ((ImageUpload.toLowerCase (ImageUpload.file_type f) =? "image/jpeg")
          || (ImageUpload.endsWith (ImageUpload.toLowerCase (ImageUpload.file_name f)) ".jpg"
          || (ImageUpload.endsWith (ImageUpload.toLowerCase (ImageUpload.file_name f)) ".jpeg"
          || ((ImageUpload.toLowerCase (ImageUpload.file_type f) =? "image/png")
          || (ImageUpload.endsWith (ImageUpload.toLowerCase (ImageUpload.file_name f)) ".png"
          || false))))).
  rewrite !orb_true_iff, !String.eqb_eq.
  split; intros H; repeat destruct H as [H|H]; try discriminate; tauto.
Qed.

(** Two ways in which the claim of C1 fails (counterexample to C1).
    A JPEG of thirteen bytes dropped together with a text file: the
    dropzone accepts the first and rejects the second, and [onDrop]
    returns at the rejection, so the JPEG is never passed to [onUpload].
    And a file whose MIME type is neither [image/jpeg] nor [image/png]
    but whose name ends in an accepted extension ([notes.jpg] of type
    [text/plain], [ktp.png] with no type): dropped alone, it is passed
    to [onUpload]. *)
Lemma valid_file_beside_invalid_not_uploaded :
  let jpg := {| ImageUpload.file_name := "ktp.jpg";
                ImageUpload.file_type := "image/jpeg";
                ImageUpload.file_size := 13 |} in
  let txt := {| ImageUpload.file_name := "notes.txt";
                ImageUpload.file_type := "text/plain";
                ImageUpload.file_size := 5 |} in
  let rejection := {| ImageUpload.file := txt;
                      ImageUpload.errors := [ImageUpload.INVALID_TYPE] |} in
  let notes := {| ImageUpload.file_name := "notes.jpg";
                  ImageUpload.file_type := "text/plain";
                  ImageUpload.file_size := 5 |} in
  let untyped := {| ImageUpload.file_name := "ktp.png";
                    ImageUpload.file_type := "";
                    ImageUpload.file_size := 13 |} in
  (ImageUpload.file_type jpg = "image/jpeg"
   /\ (ImageUpload.file_size jpg <= 10 * 1024 * 1024)%Z
   /\ ImageUpload.sort_drop ImageUpload.accepts_image [jpg; txt] = ([jpg], [rejection])
   /\ ImageUpload.onDrop [jpg] [rejection]
      = Some {| ImageUpload.validationError := Some ImageUpload.INVALID_TYPE_MESSAGE;
                ImageUpload.uploaded := [] |}
   /\ ImageUpload.drop ImageUpload.accepts_image [jpg; txt]
      = Some {| ImageUpload.validationError := Some ImageUpload.INVALID_TYPE_MESSAGE;
                ImageUpload.uploaded := [] |})
  /\ (ImageUpload.file_type notes <> "image/jpeg"
      /\ ImageUpload.file_type notes <> "image/png"
      /\ ImageUpload.drop ImageUpload.accepts_image [notes]
         = Some {| ImageUpload.validationError := None;
                   ImageUpload.uploaded := [notes] |})
  /\ (ImageUpload.file_type untyped <> "image/jpeg"
      /\ ImageUpload.file_type untyped <> "image/png"
      /\ ImageUpload.drop ImageUpload.accepts_image [untyped]
         = Some {| ImageUpload.validationError := None;
                   ImageUpload.uploaded := [untyped] |}).
Proof.
  cbv zeta. split; [|split].
  - split; [reflexivity|]. split; [vm_compute; discriminate|].
    split; [reflexivity|]. split; reflexivity.
  - split; [discriminate|]. split; [discriminate | reflexivity].
  - split; [discriminate|]. split; [discriminate | reflexivity].
Qed.

(** C1, as amended. For a file dropped alone, [onUpload] is called, with
    that file and once, if and only if the dropzone's [accept] option lets
    the file through and its size is at most 10 * 1024 * 1024 bytes.  The
    option lets a file through when its MIME type is [image/jpeg] or
    [image/png], or when its name ends in [.jpg], [.jpeg] or [.png]
    (both compared without regard to letter case), or when its type is
    [application/x-moz-file].  Otherwise [onUpload] is not called and
    [validationError] is the invalid-type message when the option refuses
    the file, whatever the size, and the too-large message when the
    option lets it through and the file is too big.  When several files
    are dropped together, [onUpload] is called for none of them and
    [validationError] is set to a message. *)
Theorem ImageUpload_single_file_upload_iff_valid :
  (forall f : ImageUpload.File,
     let valid_type :=
       ImageUpload.file_type f = "application/x-moz-file"
       \/ ImageUpload.toLowerCase (ImageUpload.file_type f) = "image/jpeg"
       \/ ImageUpload.toLowerCase (ImageUpload.file_type f) = "image/png"
       \/ ImageUpload.endsWith (ImageUpload.toLowerCase (ImageUpload.file_name f)) ".jpg" = true
       \/ ImageUpload.endsWith (ImageUpload.toLowerCase (ImageUpload.file_name f)) ".jpeg" = true
       \/ ImageUpload.endsWith (ImageUpload.toLowerCase (ImageUpload.file_name f)) ".png" = true in
     let valid_size := (ImageUpload.file_size f <= 10 * 1024 * 1024)%Z in
     exists result,
       ImageUpload.drop ImageUpload.accepts_image [f] = Some result
       /\ (In f (ImageUpload.uploaded result) <-> valid_type /\ valid_size)
       /\ (valid_type /\ valid_size ->
           ImageUpload.uploaded result = [f]
           /\ ImageUpload.validationError result = None)
       /\ (~ valid_type ->
           ImageUpload.uploaded result = []
           /\ ImageUpload.validationError result
              = Some "Invalid file type. Only JPG and PNG images are accepted.")
       /\ (valid_type -> ~ valid_size ->
           ImageUpload.uploaded result = []
           /\ ImageUpload.validationError result
              = Some "File is too large. Maximum size is 10MB."))
  /\ (forall files : list ImageUpload.File,
        2 <= length files ->
        exists text,
          ImageUpload.drop ImageUpload.accepts_image files
          = Some {| ImageUpload.validationError := Some text;
                    ImageUpload.uploaded := [] |}).
Proof.
  split; [|apply drop_several].
  intros f valid_type valid_size.
  assert (Htype : ImageUpload.accepts_image f = true <-> valid_type)
    by apply accepts_image_iff.
  assert (Hsize : (ImageUpload.file_size f >? ImageUpload.MAX_FILE_SIZE)%Z = false
                  <-> valid_size).
  { unfold valid_size. change (10 * 1024 * 1024)%Z with ImageUpload.MAX_FILE_SIZE.
    rewrite Z.gtb_ltb, Z.ltb_ge. tauto. }
  rewrite drop_single. eexists. split; [reflexivity|].
  clearbody valid_type valid_size.
  destruct (ImageUpload.accepts_image f) eqn:Ha;
    [destruct (ImageUpload.file_size f >? ImageUpload.MAX_FILE_SIZE)%Z eqn:Hs|];
    simpl.
  - assert (~ valid_size) by (rewrite <- Hsize; discriminate).
    assert (valid_type) by (apply Htype; reflexivity).
    repeat split; tauto.
  - assert (valid_size) by (apply Hsize; reflexivity).
    assert (valid_type) by (apply Htype; reflexivity).
    repeat split; tauto.
  - assert (~ valid_type) by (rewrite <- Htype; discriminate).
    repeat split; tauto.
Qed.

(** The theorem on a PNG dropped alone, on a scan named in capitals that
    comes without a type, and on two files dropped together. *)
Lemma ImageUpload_single_file_upload_iff_valid_witness :
  let png := {| ImageUpload.file_name := "scan.png";
                ImageUpload.file_type := "image/png";
                ImageUpload.file_size := 2048 |} in
  let capitals := {| ImageUpload.file_name := "SCAN.JPG";
                     ImageUpload.file_type := "";
                     ImageUpload.file_size := 2048 |} in
  (exists result,
     ImageUpload.drop ImageUpload.accepts_image [png] = Some result
     /\ ImageUpload.uploaded result = [png]
     /\ ImageUpload.validationError result = None)
  /\ (exists result,
        ImageUpload.drop ImageUpload.accepts_image [capitals] = Some result
        /\ ImageUpload.uploaded result = [capitals]
        /\ ImageUpload.validationError result = None)
  /\ (exists text,
        ImageUpload.drop ImageUpload.accepts_image [png; png]
        = Some {| ImageUpload.validationError := Some text;
                  ImageUpload.uploaded := [] |}).
Proof.
  intros png capitals.
  destruct ImageUpload_single_file_upload_iff_valid as [Hone Hmany].
  split; [|split].
  - destruct (Hone png) as (result & Hd & _ & Hok & _).
    exists result. split; [exact Hd|].
    apply Hok. split; [right; right; left; reflexivity | vm_compute; discriminate].
  - destruct (Hone capitals) as (result & Hd & _ & Hok & _).
    exists result. split; [exact Hd|].
    apply Hok. split; [do 3 right; left; reflexivity | vm_compute; discriminate].
  - apply Hmany. simpl. lia.
Defined.

(* ===================================================================== *)
(** * Properties of handleUpload *)
(* ===================================================================== *)

Section HandleUploadFacts.
Import App.

(** Ending file reads touches the preview and nothing else. *)
Lemma previews_keep (l : list (option string)) (s : State) :
  let s' := fold_left (fun s r => set_imagePreview r s) l s in
  ktpData s' = ktpData s /\ loading s' = loading s /\ error s' = error s.
Proof.
  revert s. induction l as [|r l IH]; intros s; simpl; [auto|].
  destruct (IH (set_imagePreview r s)) as (H1 & H2 & H3).
  rewrite H1, H2, H3. auto.
Qed.

Lemma previews_ktpData l s :
  ktpData (fold_left (fun s r => set_imagePreview r s) l s) = ktpData s.
Proof. apply (previews_keep l s). Qed.

Lemma previews_loading l s :
  loading (fold_left (fun s r => set_imagePreview r s) l s) = loading s.
Proof. apply (previews_keep l s). Qed.

Lemma previews_error l s :
  error (fold_left (fun s r => set_imagePreview r s) l s) = error s.
Proof. apply (previews_keep l s). Qed.



End HandleUploadFacts.

(** Runs the handler symbolically: one case per way the two promises can
    settle and per moment the file read can end. *)
Ltac run_upload net loadend_during :=
  unfold App.run, App.handleUpload, App.try_finally, App.post, App.data_ktp_data;
  cbn;
  repeat match goal with
    | |- context [if loadend_during ?r then _ else _] =>
        destruct (loadend_during r) eqn:?; cbn
    | |- context [match net ?r with _ => _ end] =>
        destruct (net r) eqn:?; cbn
    | |- context [match App.data ?r with _ => _ end] =>
        destruct (App.data r) eqn:?; cbn
    | |- context [match ?t with App.Axios _ => _ | App.Other _ => _ end] =>
        destruct t eqn:?; cbn
    end;
  rewrite ?previews_ktpData, ?previews_loading, ?previews_error.

Section HandleUploadRuns.
Import App.

Variable API_URL : string.
Variable net : Request -> Settlement.
Variable dataURL : File -> option string.
Variable loadend_during : Request -> bool.
Variable file : File.
Variable w : World.

Let upload : Request :=
  {| method := "POST"; url := API_URL ++ "/upload"; payload := [("file", file)] |}.
Let extract : Request :=
  {| method := "POST"; url := API_URL ++ "/extract"; payload := [("file", file)] |}.
Let w' : World :=
  snd (run (handleUpload API_URL net dataURL loadend_during file) w).

(** The record held after the handler has run. *)
Lemma handleUpload_ktpData :
  ktpData (app w') =
    match net upload, net extract with
    | Resolved _, Resolved r =>
        match data r with
        | Some body => ktp_data body
        | None => ktpData (app w)
        end
    | _, _ => ktpData (app w)
    end.
Proof.
  subst w' upload extract. run_upload net loadend_during; reflexivity.
Qed.

(** The state the [catch] and [finally] clauses leave behind. *)
Lemma handleUpload_caught (t : Thrown) :
  net upload = Rejected t
  \/ (exists r, net upload = Resolved r /\ net extract = Rejected t)
  \/ (exists r r', net upload = Resolved r
                   /\ net extract = Resolved r'
                   /\ data r' = None
                   /\ t = Other "TypeError") ->
  ktpData (app w') = ktpData (app w)
  /\ imagePreview (app w') = None
  /\ error (app w')
     = match t with
       | Axios e => errorMessage e
       | Other _ => Some FALLBACK_MESSAGE
       end.
Proof.
  subst w' upload extract.
  intros [H | [(r & H1 & H2) | (r & r' & H1 & H2 & H3 & ->)]];
    run_upload net loadend_during;
    repeat split; try reflexivity; try congruence;
    repeat match goal with
      | H : Resolved _ = Resolved _ |- _ => injection H as ->
      | H : Rejected _ = Rejected _ |- _ => injection H as <-
      end;
    try reflexivity; congruence.
Qed.

End HandleUploadRuns.

(** C7. [handleUpload] posts the file as form data to [{API_URL}/upload]
    first; only when that promise has resolved does it post the same form
    data to [{API_URL}/extract]; and when both have resolved it stores the
    [ktp_data] member of the extract response, which is then the record on
    display.  The log gives the order: the extract request is sent after
    the upload request has settled, and not at all when it was rejected. *)
Theorem handleUpload_upload_then_extract :
  forall (API_URL : string) (net : App.Request -> App.Settlement)
         (dataURL : App.File -> option string)
         (loadend_during : App.Request -> bool)
         (file : App.File) (w : App.World),
    let formData := [("file", file)] in
    let upload := {| App.method := "POST"; App.url := API_URL ++ "/upload";
                     App.payload := formData |} in
    let extract := {| App.method := "POST"; App.url := API_URL ++ "/extract";
                      App.payload := formData |} in
    let w' := snd (App.run (App.handleUpload API_URL net dataURL loadend_during file) w) in
    App.events w' =
      App.events w ++
      App.Sent upload ::
      match net upload with
      | App.Rejected t =>
          [App.Settled upload false; App.ConsoleError "Error processing KTP:" t]
      | App.Resolved _ =>
          App.Settled upload true ::
          App.Sent extract ::
          match net extract with
          | App.Rejected t =>
              [App.Settled extract false; App.ConsoleError "Error processing KTP:" t]
          | App.Resolved r =>
              App.Settled extract true ::
              match App.data r with
              | Some _ => []
              | None => [App.ConsoleError "Error processing KTP:" (App.Other "TypeError")]
              end
          end
      end
    /\ match net upload, net extract with
       | App.Resolved _, App.Resolved r =>
           match App.data r with
           | Some body =>
               App.ktpData (App.app w') = App.ktp_data body
               /\ App.displayed (App.app w') = App.ktp_data body
               /\ App.panel (App.page (App.app w'))
                  = match App.ktp_data body with
                    | Some record => App.KTPPanel (KTPDisplay.render record)
                    | None => App.UploadPanel (JS.guard (App.imagePreview (App.app w')))
                    end
           | None => App.ktpData (App.app w') = App.ktpData (App.app w)
           end
       | _, _ => App.ktpData (App.app w') = App.ktpData (App.app w)
       end.
Proof.
  intros API_URL net dataURL loadend_during file w formData upload extract w'.
  subst w' formData upload extract.
  split.
  - run_upload net loadend_during;
      unfold App.log, App.loadend; cbn;
      rewrite <- ?app_assoc; reflexivity.
  - run_upload net loadend_during; try reflexivity;
      unfold App.displayed, App.page; cbn;
      rewrite ?previews_loading; cbn;
      repeat split; try reflexivity;
      match goal with
      | |- context [App.ktp_data ?b] => destruct (App.ktp_data b); reflexivity
      end.
Qed.

Section ErrorMessageCases.
Import App.

Variable e : AxiosError.




End ErrorMessageCases.







(** The preview is cleared by the handler, not for good: a file read that
    ends only after a failed upload has been handled puts its result back
    into [imagePreview]. *)
Remark late_loadend_sets_preview_again :
  forall (API_URL : string) (net : App.Request -> App.Settlement)
         (dataURL : App.File -> option string)
         (file : App.File) (w : App.World) (t : App.Thrown),
    net {| App.method := "POST"; App.url := API_URL ++ "/upload";
           App.payload := [("file", file)] |} = App.Rejected t ->
    let w' := snd (App.run (App.handleUpload API_URL net dataURL
                              (fun _ => false) file) w) in
    App.imagePreview (App.app w') = None
    /\ App.imagePreview (App.app (App.loadend w')) = dataURL file.
Proof.
  intros API_URL net dataURL file w t Hnet w'. subst w'.
  unfold App.run, App.handleUpload, App.try_finally, App.post. cbn.
  rewrite Hnet. cbn. split; [destruct t; reflexivity|].
  unfold App.loadend. cbn. destruct t; cbn; rewrite fold_left_app; reflexivity.
Qed.

(* ===================================================================== *)
(** * Properties of the front end against the server *)
(* ===================================================================== *)

Section SystemFacts.
Import App.

(** [nik_valid] says: sixteen characters, all of them digits. *)
Lemma nik_valid_iff (s : string) :
  Backend.nik_valid s = true <->
  String.length s = 16
  /\ Forall (fun c => 48 <= nat_of_ascii c <= 57) (list_ascii_of_string s).
Proof.
  unfold Backend.nik_valid.
  rewrite andb_true_iff, Nat.eqb_eq, forallb_forall, Forall_forall.
  split; intros [Hlen Hall]; split; try exact Hlen; intros c Hc;
    specialize (Hall c Hc); unfold Backend.is_digit in *.
  - apply andb_prop in Hall. destruct Hall as [H1 H2].
    apply Nat.leb_le in H1. apply Nat.leb_le in H2. lia.
  - apply andb_true_intro. split; apply Nat.leb_le; lia.
Qed.

Variable API_URL : string.
Variable recognise : Request -> KTP.KTPData.
Variable refusal : Request -> AxiosError.

(** Every record the server sends has passed both checks. *)
Lemma serve_resolved (request : Request) (r : Response) (body : Body)
      (record : KTP.KTPData) :
  Backend.serve API_URL recognise refusal request = Resolved r ->
  data r = Some body ->
  ktp_data body = Some record ->
  Backend.nik_valid (KTP.nik record) = true
  /\ Backend.birth_date_valid (KTP.birth_date record) = true.
Proof.
  unfold Backend.serve, Backend.upload, Backend.extract.
  destruct (url request =? API_URL ++ "/upload").
  - destruct (forallb _ _); [|discriminate].
    intros H. injection H as <-. simpl. intros H. injection H as <-.
    discriminate.
  - destruct (url request =? API_URL ++ "/extract"); [|discriminate].
    destruct (Backend.nik_valid (KTP.nik (recognise request))
              && Backend.birth_date_valid (KTP.birth_date (recognise request)))
      eqn:V; [|discriminate].
    intros H. injection H as <-. simpl. intros H. injection H as <-.
    simpl. intros H. injection H as <-. apply andb_prop. exact V.
Qed.

(** The record held by the page has always passed both checks. *)
Lemma reachable_record_valid (w : World) :
  System.reachable API_URL recognise refusal w ->
  forall record, ktpData (app w) = Some record ->
                 Backend.nik_valid (KTP.nik record) = true
                 /\ Backend.birth_date_valid (KTP.birth_date record) = true.
Proof.
  induction 1 as [|w w' Hreach IH Hstep].
  - discriminate.
  - destruct Hstep as [w file dataURL loadend_during | w | w].
    + intros record. rewrite handleUpload_ktpData.
      destruct (Backend.serve _ _ _
                  {| method := "POST"; url := API_URL ++ "/upload";
                     payload := [("file", file)] |}) as [ack|]; [|apply IH].
      destruct (Backend.serve _ _ _
                  {| method := "POST"; url := API_URL ++ "/extract";
                     payload := [("file", file)] |}) as [answer|] eqn:E; [|apply IH].
      destruct (data answer) as [body|] eqn:D; [|apply IH].
      intros Hrec. exact (serve_resolved _ _ _ _ E D Hrec).
    + discriminate.
    + intros record. unfold loadend. simpl. rewrite previews_ktpData. apply IH.
Qed.

(** What is displayed is held. *)
Lemma displayed_is_held (s : State) (record : KTP.KTPData) :
  ktpData s = Some record \/ displayed s = Some record ->
  ktpData s = Some record.
Proof.
  intros [H|H]; [exact H|].
  unfold displayed in H. destruct (loading s); [discriminate | exact H].
Qed.

End SystemFacts.

Section DateShape.

Lemma is_digit_iff (c : ascii) :
  Backend.is_digit c = true <-> 48 <= nat_of_ascii c <= 57.
Proof.
  unfold Backend.is_digit. rewrite andb_true_iff, !Nat.leb_le. tauto.
Qed.

(** [birth_date_valid] says: DD-MM-YYYY, with digits for the letters. *)
Lemma birth_date_valid_iff (s : string) :
  Backend.birth_date_valid s = true <->
  exists d1 d2 m1 m2 y1 y2 y3 y4 : ascii,
    s = String d1 (String d2 (String "-" (String m1 (String m2 (String "-"
          (String y1 (String y2 (String y3 (String y4 EmptyString)))))))))
    /\ Forall (fun c => 48 <= nat_of_ascii c <= 57) [d1; d2; m1; m2; y1; y2; y3; y4].
Proof.
  split.
  - unfold Backend.birth_date_valid.
    do 10 (destruct s as [|? s]; [discriminate|]).
    destruct s; [|discriminate]. simpl.
    rewrite !andb_true_iff, !is_digit_iff, !Ascii.eqb_eq.
    intros H. decompose [and] H. subst.
    eexists _, _, _, _, _, _, _, _. split; [reflexivity|].
    repeat (apply Forall_cons; [lia|]). apply Forall_nil.
  - intros (d1 & d2 & m1 & m2 & y1 & y2 & y3 & y4 & -> & HF).
    unfold Backend.birth_date_valid. cbn [list_ascii_of_string].
    repeat match goal with
           | H : Forall _ (_ :: _) |- _ => inversion H; subst; clear H
           end.
    rewrite !andb_true_iff, !is_digit_iff, !Ascii.eqb_eq. tauto.
Qed.

End DateShape.

(** C4. Every record the server sends in an extract response, and hence
    every record the page holds or displays in a session that starts from
    the freshly mounted page, has a NIK of exactly sixteen characters, all
    decimal digits; and the NIK row KTPDisplay shows carries that very
    string. *)
Theorem displayed_nik_is_sixteen_digits :
  forall (API_URL : string) (recognise : App.Request -> KTP.KTPData)
         (refusal : App.Request -> App.AxiosError),
    (forall request r body record,
       Backend.serve API_URL recognise refusal request = App.Resolved r ->
       App.data r = Some body ->
       App.ktp_data body = Some record ->
       Backend.nik_valid (KTP.nik record) = true)
    /\ (forall w : App.World,
          System.reachable API_URL recognise refusal w ->
          forall record,
            App.ktpData (App.app w) = Some record
            \/ App.displayed (App.app w) = Some record ->
            String.length (KTP.nik record) = 16
            /\ Forall (fun c => 48 <= nat_of_ascii c <= 57)
                      (list_ascii_of_string (KTP.nik record))
            /\ In {| KTPDisplay.row_key := "nik";
                     KTPDisplay.row_label := "NIK";
                     KTPDisplay.row_value := KTP.nik record;
                     KTPDisplay.row_class := "bg-gray-50" |}
                  (KTPDisplay.shown (KTPDisplay.render record))).
Proof.
  intros API_URL recognise refusal. split.
  - intros request r body record H1 H2 H3.
    apply (serve_resolved _ _ _ _ _ _ _ H1 H2 H3).
  - intros w Hreach record Hrec.
    pose proof (displayed_is_held _ _ Hrec) as Hheld.
    destruct (reachable_record_valid _ _ _ _ Hreach record Hheld) as [V _].
    apply nik_valid_iff in V. destruct V as [Hlen Hdigits].
    split; [exact Hlen|]. split; [exact Hdigits|].
    simpl. apply In_rows. exists ("nik", "NIK"), 0. split; [reflexivity|].
    unfold KTPDisplay.entry. simpl.
    destruct (KTP.nik record) as [|c s]; [discriminate Hlen | reflexivity].
Qed.

(** The theorem on a session of one upload whose image the pipeline reads
    as the record of the test fixture, its birth date written day
    first. *)
Lemma displayed_nik_is_sixteen_digits_witness :
  let record :=
    {| KTP.nik := "3173042504900001"; KTP.name := "JOHN DOE";
       KTP.birth_place := "JAKARTA"; KTP.birth_date := "25-04-1990";
       KTP.gender := KTP.LAKI_LAKI; KTP.address := "JL. KEBON JERUK";
       KTP.blood_type := Some KTP.BT_O; KTP.religion := Some "ISLAM";
       KTP.marital_status := Some "KAWIN";
       KTP.occupation := Some "KARYAWAN SWASTA";
       KTP.nationality := Some "WNI";
       KTP.valid_until := Some "SEUMUR HIDUP" |} in
  let recognise := fun _ : App.Request => record in
  let refusal := fun _ : App.Request =>
                   {| App.response := None; App.message := "Network Error" |} in
  let file := {| ImageUpload.file_name := "ktp.jpg";
                 ImageUpload.file_type := "image/jpeg";
                 ImageUpload.file_size := 13 |} in
  let w := snd (App.run
                  (App.handleUpload "/api" (Backend.serve "/api" recognise refusal)
                     (fun _ => Some "data:image/jpeg;base64,")
                     (fun _ => true) file)
                  {| App.app := App.initialState; App.reading := [];
                     App.events := [] |}) in
  App.displayed (App.app w) = Some record
  /\ String.length (KTP.nik record) = 16
  /\ Forall (fun c => 48 <= nat_of_ascii c <= 57)
            (list_ascii_of_string (KTP.nik record)).
Proof.
  intros record recognise refusal file w.
  assert (Hshown : App.displayed (App.app w) = Some record) by reflexivity.
  split; [exact Hshown|].
  destruct (displayed_nik_is_sixteen_digits "/api" recognise refusal) as [_ H].
  destruct (H w) with (record := record) as (Hlen & Hdigits & _).
  - apply System.reachable_step
      with (w := {| App.app := App.initialState; App.reading := [];
                    App.events := [] |}).
    + apply System.reachable_mounted.
    + apply System.step_upload.
  - right. exact Hshown.
  - split; assumption.
Defined.

(** C5. Every record the server sends in an extract response, and hence
    every record the page holds or displays in a session that starts from
    the freshly mounted page, has a birth date in the format DD-MM-YYYY:
    two digits, a hyphen, two digits, a hyphen and four digits; and the
    "Tanggal Lahir" row KTPDisplay shows carries that very string. *)
Theorem displayed_birth_date_is_dd_mm_yyyy :
  forall (API_URL : string) (recognise : App.Request -> KTP.KTPData)
         (refusal : App.Request -> App.AxiosError),
    (forall request r body record,
       Backend.serve API_URL recognise refusal request = App.Resolved r ->
       App.data r = Some body ->
       App.ktp_data body = Some record ->
       Backend.birth_date_valid (KTP.birth_date record) = true)
    /\ (forall w : App.World,
          System.reachable API_URL recognise refusal w ->
          forall record,
            App.ktpData (App.app w) = Some record
            \/ App.displayed (App.app w) = Some record ->
            (exists d1 d2 m1 m2 y1 y2 y3 y4 : ascii,
               KTP.birth_date record
               = String d1 (String d2 (String "-" (String m1 (String m2 (String "-"
                   (String y1 (String y2 (String y3 (String y4 EmptyString)))))))))
               /\ Forall (fun c => 48 <= nat_of_ascii c <= 57)
                         [d1; d2; m1; m2; y1; y2; y3; y4])
            /\ In {| KTPDisplay.row_key := "birth_date";
                     KTPDisplay.row_label := "Tanggal Lahir";
                     KTPDisplay.row_value := KTP.birth_date record;
                     KTPDisplay.row_class := "bg-white" |}
                  (KTPDisplay.shown (KTPDisplay.render record))).
Proof.
  intros API_URL recognise refusal. split.
  - intros request r body record H1 H2 H3.
    apply (serve_resolved _ _ _ _ _ _ _ H1 H2 H3).
  - intros w Hreach record Hrec.
    pose proof (displayed_is_held _ _ Hrec) as Hheld.
    destruct (reachable_record_valid _ _ _ _ Hreach record Hheld) as [_ V].
    apply birth_date_valid_iff in V. split; [exact V|].
    destruct V as (d1 & d2 & m1 & m2 & y1 & y2 & y3 & y4 & Hdate & _).
    simpl. apply In_rows. exists ("birth_date", "Tanggal Lahir"), 3.
    split; [reflexivity|].
    unfold KTPDisplay.entry. simpl. rewrite Hdate. reflexivity.
Qed.

(** The theorem on a session of one upload whose image the pipeline reads
    as the record of the test fixture, its birth date written day
    first. *)
Lemma displayed_birth_date_is_dd_mm_yyyy_witness :
  let record :=
    {| KTP.nik := "3173042504900001"; KTP.name := "JOHN DOE";
       KTP.birth_place := "JAKARTA"; KTP.birth_date := "25-04-1990";
       KTP.gender := KTP.LAKI_LAKI; KTP.address := "JL. KEBON JERUK";
       KTP.blood_type := Some KTP.BT_O; KTP.religion := Some "ISLAM";
       KTP.marital_status := Some "KAWIN";
       KTP.occupation := Some "KARYAWAN SWASTA";
       KTP.nationality := Some "WNI";
       KTP.valid_until := Some "SEUMUR HIDUP" |} in
  let recognise := fun _ : App.Request => record in
  let refusal := fun _ : App.Request =>
                   {| App.response := None; App.message := "Network Error" |} in
  let file := {| ImageUpload.file_name := "ktp.jpg";
                 ImageUpload.file_type := "image/jpeg";
                 ImageUpload.file_size := 13 |} in
  let w := snd (App.run
                  (App.handleUpload "/api" (Backend.serve "/api" recognise refusal)
                     (fun _ => Some "data:image/jpeg;base64,")
                     (fun _ => true) file)
                  {| App.app := App.initialState; App.reading := [];
                     App.events := [] |}) in
  App.displayed (App.app w) = Some record
  /\ In {| KTPDisplay.row_key := "birth_date";
           KTPDisplay.row_label := "Tanggal Lahir";
           KTPDisplay.row_value := "25-04-1990";
           KTPDisplay.row_class := "bg-white" |}
        (KTPDisplay.shown (KTPDisplay.render record)).
Proof.
  intros record recognise refusal file w.
  assert (Hshown : App.displayed (App.app w) = Some record) by reflexivity.
  split; [exact Hshown|].
  destruct (displayed_birth_date_is_dd_mm_yyyy "/api" recognise refusal) as [_ H].
  destruct (H w) with (record := record) as (_ & Hrow).
  - apply System.reachable_step
      with (w := {| App.app := App.initialState; App.reading := [];
                    App.events := [] |}).
    + apply System.reachable_mounted.
    + apply System.step_upload.
  - right. exact Hshown.
  - exact Hrow.
Defined.

(* ===================================================================== *)
(** * The test suites of the repository, replayed on the embedding *)
(* ===================================================================== *)

Section TestSuites.

(** ImageUpload.test.tsx, "calls onUpload when file is dropped". *)
Example test_calls_onUpload_when_file_is_dropped :
  let file := {| ImageUpload.file_name := "ktp.jpg";
                 ImageUpload.file_type := "image/jpeg";
                 ImageUpload.file_size := 13 |} in
  ImageUpload.drop ImageUpload.accepts_image [file]
  = Some {| ImageUpload.validationError := None;
            ImageUpload.uploaded := [file] |}.
Proof. reflexivity. Qed.

(** KTPDisplay tests, "displays KTP data correctly". *)
Example test_displays_KTP_data_correctly :
  let values := map KTPDisplay.row_value (KTPDisplay.rows KTP.mockKTPData) in
  In (KTP.name KTP.mockKTPData) values
  /\ In (KTP.nik KTP.mockKTPData) values
  /\ In (KTP.address KTP.mockKTPData) values.
Proof. vm_compute. tauto. Qed.

(** KTPDisplay tests, "shows field labels in Indonesian". *)
Example test_shows_field_labels_in_Indonesian :
  incl [ "NIK"; "Nama"; "Tempat Lahir"; "Tanggal Lahir"; "Jenis Kelamin";
         "Alamat"; "Golongan Darah"; "Agama"; "Status Perkawinan" ]
       (map KTPDisplay.row_label (KTPDisplay.rows KTP.mockKTPData)).
Proof. intros label H. vm_compute in H |- *. tauto. Qed.

(** KTPDisplay tests, "handles optional fields correctly". *)
Example test_handles_optional_fields_correctly :
  map KTPDisplay.row_label (KTPDisplay.rows KTP.partialData)
  = [ "NIK"; "Nama"; "Tempat Lahir"; "Tanggal Lahir"; "Jenis Kelamin"; "Alamat" ].
Proof. reflexivity. Qed.

(** ErrorBoundary tests, "renders children when there is no error". *)
Example test_renders_children_when_there_is_no_error :
  ErrorBoundary.render ErrorBoundary.initialState "Test content"
  = ErrorBoundary.Children "Test content".
Proof. reflexivity. Qed.

(** ErrorBoundary tests, "shows error UI when child throws". *)
Example test_shows_error_UI_when_child_throws :
  ErrorBoundary.render
    (ErrorBoundary.getDerivedStateFromError
       {| ErrorBoundary.message := "Test error" |})
    "Normal content"
  = ErrorBoundary.Fallback "An error occurred" "Test error" "Try again".
Proof. reflexivity. Qed.

End TestSuites.

(* ===================================================================== *)
(** * More on KTPDisplay: which rows, in which order, on which stripe *)
(* ===================================================================== *)

Section KTPDisplayRows.
Import KTP KTPDisplay.

Lemma rows_from (data : KTPData) (l : list (string * string)) (i : nat) :
  map (fun r => (row_key r, row_label r)) (omit_null (mapi (entry data) i l))
  = filter (fun kl => JS.truthy (field data (fst kl))) l.
Proof.
  revert i. induction l as [|[key label] l IH]; intros i; [reflexivity|].
  simpl mapi. simpl filter. unfold entry at 1.
  destruct (field data key) as [v|] eqn:E.
  - destruct (JS.truthy (Some v)); simpl; rewrite IH; reflexivity.
  - simpl. apply IH.
Qed.

Lemma NoDup_map_fst_filter (A B : Type) (p : A * B -> bool) (l : list (A * B)) :
  NoDup (map fst l) -> NoDup (map fst (filter p l)).
Proof.
  induction l as [|x l IH]; simpl; intros H; [constructor|].
  inversion H as [|? ? Hnotin Hrest]; subst.
  destruct (p x); simpl; [|auto].
  constructor; [|auto].
  intros Hin. apply Hnotin. apply in_map_iff in Hin.
  destruct Hin as (y & Hy & Hin). apply filter_In in Hin.
  apply in_map_iff. exists y. tauto.
Qed.

Lemma fieldLabels_keys_distinct : NoDup (map fst fieldLabels).
Proof.
  simpl. repeat constructor; simpl; intuition discriminate.
Qed.

End KTPDisplayRows.

(** X1. The rows KTPDisplay shows are the entries of [fieldLabels] whose
    value is truthy, each once, in the order of [fieldLabels]: the list of
    (key, label) pairs on the page is [fieldLabels] filtered by the
    truthiness of the field. *)
Theorem KTPDisplay_rows_are_filtered_fieldLabels :
  forall data : KTP.KTPData,
    map (fun r => (KTPDisplay.row_key r, KTPDisplay.row_label r))
        (KTPDisplay.shown (KTPDisplay.render data))
    = filter (fun kl => JS.truthy (KTP.field data (fst kl))) KTPDisplay.fieldLabels.
Proof.
  intros data. apply rows_from.
Qed.

(** X2. The React keys of the rows are pairwise distinct, and there are
    between one and twelve rows: the gender row is always there, since
    neither gender literal is empty. *)
Theorem KTPDisplay_keys_distinct_and_bounded :
  forall data : KTP.KTPData,
    NoDup (map KTPDisplay.row_key (KTPDisplay.shown (KTPDisplay.render data)))
    /\ 1 <= length (KTPDisplay.shown (KTPDisplay.render data)) <= 12
    /\ In "gender" (map KTPDisplay.row_key (KTPDisplay.shown (KTPDisplay.render data))).
Proof.
  intros data. simpl KTPDisplay.shown.
  assert (Hkeys : map KTPDisplay.row_key (KTPDisplay.rows data)
                  = map fst (filter (fun kl => JS.truthy (KTP.field data (fst kl)))
                                    KTPDisplay.fieldLabels)).
  { unfold KTPDisplay.rows, KTPDisplay.entries.
    rewrite <- (rows_from data KTPDisplay.fieldLabels 0), map_map. reflexivity. }
  assert (Hgender : In "gender" (map KTPDisplay.row_key (KTPDisplay.rows data))).
  { rewrite Hkeys. apply in_map_iff. exists ("gender", "Jenis Kelamin").
    split; [reflexivity|]. apply filter_In. split; [simpl; tauto|].
    simpl. destruct (KTP.gender data); reflexivity. }
  split; [|split; [split|exact Hgender]].
  - rewrite Hkeys. apply NoDup_map_fst_filter. apply fieldLabels_keys_distinct.
  - destruct (KTPDisplay.rows data); [destruct Hgender | simpl; lia].
  - rewrite <- (length_map KTPDisplay.row_key), Hkeys, length_map.
    apply (filter_length_le _ KTPDisplay.fieldLabels).
Qed.

(** X3. The background of a row is chosen from the position of its field
    in [fieldLabels], not from its position on the page.  So the stripes
    do not alternate once a field is left out: with the name empty and
    NIK and birth place present, the first two rows on the page are NIK
    and Tempat Lahir, both on [bg-gray-50]. *)
Theorem KTPDisplay_stripes_follow_fieldLabels :
  forall data : KTP.KTPData,
    (forall r, In r (KTPDisplay.shown (KTPDisplay.render data)) ->
       exists j,
         nth_error KTPDisplay.fieldLabels j
           = Some (KTPDisplay.row_key r, KTPDisplay.row_label r)
         /\ KTPDisplay.row_class r
            = if Nat.even j then "bg-gray-50" else "bg-white")
    /\ (KTP.nik data <> "" -> KTP.name data = "" -> KTP.birth_place data <> "" ->
        exists rest,
          KTPDisplay.shown (KTPDisplay.render data)
          = {| KTPDisplay.row_key := "nik"; KTPDisplay.row_label := "NIK";
               KTPDisplay.row_value := KTP.nik data;
               KTPDisplay.row_class := "bg-gray-50" |}
            :: {| KTPDisplay.row_key := "birth_place";
                  KTPDisplay.row_label := "Tempat Lahir";
                  KTPDisplay.row_value := KTP.birth_place data;
                  KTPDisplay.row_class := "bg-gray-50" |}
            :: rest).
Proof.
  intros data. simpl KTPDisplay.shown. split.
  - intros r Hr. apply In_rows in Hr. destruct Hr as ([key label] & j & Hj & He).
    exists j. unfold KTPDisplay.entry in He.
    destruct (KTP.field data key) as [v|]; [|discriminate].
    destruct (JS.truthy (Some v)); [|discriminate].
    injection He as <-. simpl. auto.
  - intros Hnik Hname Hplace.
    apply String.eqb_neq in Hnik. apply String.eqb_neq in Hplace.
    unfold KTPDisplay.rows, KTPDisplay.entries, KTPDisplay.fieldLabels.
    cbn [KTPDisplay.mapi]. unfold KTPDisplay.entry at 1 2 3.
    cbn [KTP.field String.eqb Ascii.eqb Bool.eqb JS.truthy].
    rewrite Hnik, Hname, Hplace. cbn [negb String.eqb KTPDisplay.omit_null Nat.even].
    eexists. reflexivity.
Qed.

Lemma KTPDisplay_stripes_follow_fieldLabels_witness :
  let data :=
    {| KTP.nik := "3173042504900001"; KTP.name := ""; KTP.birth_place := "JAKARTA";
       KTP.birth_date := "1990-04-25"; KTP.gender := KTP.LAKI_LAKI;
       KTP.address := "JL. KEBON JERUK"; KTP.blood_type := None;
       KTP.religion := None; KTP.marital_status := None; KTP.occupation := None;
       KTP.nationality := None; KTP.valid_until := None |} in
  exists rest,
    KTPDisplay.shown (KTPDisplay.render data)
    = {| KTPDisplay.row_key := "nik"; KTPDisplay.row_label := "NIK";
         KTPDisplay.row_value := "3173042504900001";
         KTPDisplay.row_class := "bg-gray-50" |}
      :: {| KTPDisplay.row_key := "birth_place";
            KTPDisplay.row_label := "Tempat Lahir";
            KTPDisplay.row_value := "JAKARTA";
            KTPDisplay.row_class := "bg-gray-50" |}
      :: rest.
Proof.
  intros data.
  apply (proj2 (KTPDisplay_stripes_follow_fieldLabels data));
    [discriminate | reflexivity | discriminate].
Defined.

(* ===================================================================== *)
(** * More on ErrorBoundary *)
(* ===================================================================== *)

(** X4. Whatever the state, the text of the fallback is never empty: it is
    the message of the caught error when that is not empty, and
    "Something went wrong" when the message is empty or no error is
    stored. *)
Theorem ErrorBoundary_fallback_text_never_empty :
  forall st : ErrorBoundary.State,
    ErrorBoundary.fallback_text st <> ""
    /\ ErrorBoundary.fallback_text st
       = match ErrorBoundary.error st with
         | Some e => if ErrorBoundary.message e =? "" then "Something went wrong"
                     else ErrorBoundary.message e
         | None => "Something went wrong"
         end.
Proof.
  intros [h [[m]|]]; unfold ErrorBoundary.fallback_text, JS.or; simpl.
  - destruct (String.eqb_spec m ""); simpl; split;
      [discriminate | reflexivity | assumption | reflexivity].
  - split; [discriminate | reflexivity].
Qed.

(** X5. While an error is held the children are not rendered at all: the
    screen is the fallback and the state stays as it is, whatever the
    children would do now.  After "Try again" the children are rendered
    once more, and if they throw again the boundary holds the new error
    and shows the fallback for it. *)
Theorem ErrorBoundary_holds_until_retry :
  forall (C V : Type) (render_children : C -> V + ErrorBoundary.Error)
         (children : C) (st : ErrorBoundary.State),
    (ErrorBoundary.hasError st = true ->
     ErrorBoundary.paint render_children st children
     = (st, ErrorBoundary.ShowsFallback (ErrorBoundary.fallback_text st)))
    /\ (forall e,
          render_children children = inr e ->
          ErrorBoundary.paint render_children (ErrorBoundary.tryAgain st) children
          = (ErrorBoundary.getDerivedStateFromError e,
             ErrorBoundary.ShowsFallback
               (ErrorBoundary.fallback_text (ErrorBoundary.getDerivedStateFromError e)))).
Proof.
  intros C V render_children children st. split.
  - intros H. unfold ErrorBoundary.paint, ErrorBoundary.render. rewrite H. reflexivity.
  - intros e He. unfold ErrorBoundary.paint. simpl. rewrite He. reflexivity.
Qed.

Lemma ErrorBoundary_holds_until_retry_witness :
  let held := ErrorBoundary.getDerivedStateFromError
                {| ErrorBoundary.message := "Test error" |} in
  let recovered (_ : unit) : string + ErrorBoundary.Error := inl "Normal content" in
  let broken (_ : unit) : string + ErrorBoundary.Error :=
    inr {| ErrorBoundary.message := "Still broken" |} in
  ErrorBoundary.paint recovered held tt
    = (held, ErrorBoundary.ShowsFallback "Test error")
  /\ ErrorBoundary.paint broken (ErrorBoundary.tryAgain held) tt
     = (ErrorBoundary.getDerivedStateFromError
          {| ErrorBoundary.message := "Still broken" |},
        ErrorBoundary.ShowsFallback "Still broken").
Proof.
  intros held recovered broken. split.
  - apply (proj1 (ErrorBoundary_holds_until_retry unit string recovered tt held)).
    reflexivity.
  - apply (proj2 (ErrorBoundary_holds_until_retry unit string broken tt held)
             {| ErrorBoundary.message := "Still broken" |}).
    reflexivity.
Defined.

(* ===================================================================== *)
(** * More on ImageUpload *)
(* ===================================================================== *)

(** X6. Whatever arrays [onDrop] is called with, it calls [onUpload] at
    most once, and only with the first accepted file, only when nothing
    was rejected and only when that file is not larger than
    [MAX_FILE_SIZE]; [validationError] ends as [null] exactly when nothing
    was rejected and there is no first accepted file that is too large. *)
Theorem onDrop_uploads_at_most_first_accepted :
  forall (acceptedFiles : list ImageUpload.File)
         (rejectedFiles : list ImageUpload.FileRejection)
         (result : ImageUpload.Dropped),
    ImageUpload.onDrop acceptedFiles rejectedFiles = Some result ->
    (length (ImageUpload.uploaded result) <= 1)%nat
    /\ (forall f, In f (ImageUpload.uploaded result) ->
          rejectedFiles = []
          /\ hd_error acceptedFiles = Some f
          /\ (ImageUpload.file_size f <= ImageUpload.MAX_FILE_SIZE)%Z)
    /\ (ImageUpload.validationError result = None <->
        rejectedFiles = []
        /\ forall f, hd_error acceptedFiles = Some f ->
                     (ImageUpload.file_size f <= ImageUpload.MAX_FILE_SIZE)%Z).
Proof.
  intros acceptedFiles rejectedFiles result.
  unfold ImageUpload.onDrop.
  destruct rejectedFiles as [|rejection rest].
  - destruct acceptedFiles as [|file others].
    + intros H. injection H as <-. simpl.
      split; [lia|]. split; [tauto|].
      split; [intros _; split; [reflexivity | discriminate] | reflexivity].
    + destruct (ImageUpload.file_size file >? ImageUpload.MAX_FILE_SIZE)%Z eqn:Hs;
        intros H; injection H as <-; simpl.
      * apply Z.gtb_lt in Hs.
        split; [lia|]. split; [tauto|].
        split; [discriminate|].
        intros [_ H]. specialize (H file eq_refl). lia.
      * rewrite Z.gtb_ltb, Z.ltb_ge in Hs.
        split; [lia|]. split.
        -- intros f [<- | []]. auto.
        -- split; [intros _; split; [reflexivity|] | reflexivity].
           intros f Hf. injection Hf as <-. exact Hs.
  - destruct (ImageUpload.errors rejection) as [|error more]; [discriminate|].
    intros H. injection H as <-. simpl.
    split; [lia|]. split; [tauto|].
    split; [discriminate | intros [H _]; discriminate].
Qed.

Lemma onDrop_uploads_at_most_first_accepted_witness :
  let a := {| ImageUpload.file_name := "a.png"; ImageUpload.file_type := "image/png";
              ImageUpload.file_size := 100 |} in
  let b := {| ImageUpload.file_name := "b.png"; ImageUpload.file_type := "image/png";
              ImageUpload.file_size := 200 |} in
  ImageUpload.onDrop [a; b] []
    = Some {| ImageUpload.validationError := None; ImageUpload.uploaded := [a] |}
  /\ hd_error [a; b] = Some a
  /\ (ImageUpload.file_size a <= ImageUpload.MAX_FILE_SIZE)%Z.
Proof.
  intros a b. split; [reflexivity|].
  destruct (onDrop_uploads_at_most_first_accepted [a; b] []
              {| ImageUpload.validationError := None; ImageUpload.uploaded := [a] |}
              eq_refl) as (_ & H & _).
  destruct (H a) as (_ & H1 & H2); [left; reflexivity | split; assumption].
Defined.

(** X7. [onDrop] throws (on reading [.code] of [undefined]) exactly when
    the first rejection comes with an empty [errors] array.  On the
    dropzone that never happens: every rejection it hands over carries at
    least one error, so a drop of any files runs [onDrop] to its end. *)
Theorem onDrop_throws_iff_first_rejection_without_errors :
  (forall (acceptedFiles : list ImageUpload.File)
          (rejectedFiles : list ImageUpload.FileRejection),
     ImageUpload.onDrop acceptedFiles rejectedFiles = None
     <-> exists rejection rest,
           rejectedFiles = rejection :: rest
           /\ ImageUpload.errors rejection = [])
  /\ (forall (accepts : ImageUpload.File -> bool) (files : list ImageUpload.File),
        (forall rejection,
           In rejection (snd (ImageUpload.sort_drop accepts files)) ->
           ImageUpload.errors rejection <> [])
        /\ ImageUpload.drop accepts files <> None).
Proof.
  split.
  - intros acceptedFiles rejectedFiles. unfold ImageUpload.onDrop. split.
    + destruct rejectedFiles as [|rejection rest].
      * destruct acceptedFiles as [|file others]; [discriminate|].
        destruct (ImageUpload.file_size file >? ImageUpload.MAX_FILE_SIZE)%Z;
          discriminate.
      * destruct (ImageUpload.errors rejection) eqn:E; [|discriminate].
        intros _. exists rejection, rest. auto.
    + intros (rejection & rest & -> & ->). reflexivity.
  - intros accepts files.
    assert (Herrors : forall rejection,
               In rejection (snd (ImageUpload.sort_drop accepts files)) ->
               ImageUpload.errors rejection <> []).
    { intros rejection. unfold ImageUpload.sort_drop.
      assert (Hrej : forall r,
                 In r (map (fun f => {| ImageUpload.file := f;
                                        ImageUpload.errors := ImageUpload.file_errors accepts f |})
                           (filter (fun f => negb (ImageUpload.passes accepts f)) files)) ->
                 ImageUpload.errors r <> []).
      { intros r Hr. apply in_map_iff in Hr. destruct Hr as (f & <- & Hf).
        apply filter_In in Hf. destruct Hf as [_ Hf]. simpl.
        unfold ImageUpload.passes in Hf.
        destruct (ImageUpload.file_errors accepts f); [discriminate Hf | discriminate]. }
      destruct (1 <? length (filter (ImageUpload.passes accepts) files))%nat; simpl.
      - intros Hin. apply in_app_or in Hin. destruct Hin as [Hin | Hin].
        + apply Hrej. exact Hin.
        + apply in_map_iff in Hin. destruct Hin as (f & <- & _). discriminate.
      - apply Hrej. }
    split; [exact Herrors|].
    unfold ImageUpload.drop.
    destruct (ImageUpload.sort_drop accepts files) as [acceptedFiles rejectedFiles].
    simpl in Herrors. unfold ImageUpload.onDrop.
    destruct rejectedFiles as [|rejection rest].
    + destruct acceptedFiles as [|file others]; [discriminate|].
      destruct (ImageUpload.file_size file >? ImageUpload.MAX_FILE_SIZE)%Z; discriminate.
    + destruct (ImageUpload.errors rejection) eqn:E; [|discriminate].
      exfalso. apply (Herrors rejection); [left; reflexivity | exact E].
Qed.

Lemma onDrop_throws_iff_first_rejection_without_errors_witness :
  let jpg := {| ImageUpload.file_name := "ktp.jpg";
                ImageUpload.file_type := "image/jpeg";
                ImageUpload.file_size := 13 |} in
  let big := {| ImageUpload.file_name := "scan.png";
                ImageUpload.file_type := "image/png";
                ImageUpload.file_size := 20000000 |} in
  ImageUpload.errors {| ImageUpload.file := big;
                        ImageUpload.errors := [ImageUpload.TOO_LARGE] |} <> []
  /\ ImageUpload.drop ImageUpload.accepts_image [jpg; big] <> None.
Proof.
  intros jpg big.
  destruct onDrop_throws_iff_first_rejection_without_errors as [_ H].
  destruct (H ImageUpload.accepts_image [jpg; big]) as [Herrors Hdrop].
  split; [|exact Hdrop].
  apply Herrors. vm_compute. left. reflexivity.
Defined.

Section DropMessages.
Import ImageUpload.

Variable accepts : File -> bool.

Lemma find_first_of_filter (A : Type) (p : A -> bool) (l : list A) :
  find p l = hd_error (filter p l).
Proof.
  induction l as [|a l IH]; simpl; [reflexivity|].
  destruct (p a); [reflexivity | exact IH].
Qed.

(** A refused file in the drop: the first one decides the message. *)
Lemma drop_with_refused (files : list File) (g : File) :
  find (fun f => negb (passes accepts f)) files = Some g ->
  drop accepts files
  = Some {| validationError :=
              Some (if accepts g then TOO_LARGE_MESSAGE else INVALID_TYPE_MESSAGE);
            uploaded := [] |}.
Proof.
  rewrite find_first_of_filter. intros Hfirst.
  destruct (filter (fun f => negb (passes accepts f)) files) as [|g' gs] eqn:Hrej;
    [discriminate|].
  injection Hfirst as ->.
  assert (Hg : passes accepts g = false).
  { assert (Hin : In g (filter (fun f => negb (passes accepts f)) files))
      by (rewrite Hrej; left; reflexivity).
    apply filter_In in Hin. destruct Hin as [_ Hin].
    destruct (passes accepts g); [discriminate | reflexivity]. }
  destruct (file_errors_first accepts g Hg) as (error & more & He & Hm).
  unfold drop, sort_drop. rewrite Hrej.
  destruct (1 <? length (filter (passes accepts) files))%nat; simpl;
    rewrite He, Hm; reflexivity.
Qed.

(** No refused file, and more than one file: too many. *)
Lemma drop_too_many (files : list File) :
  find (fun f => negb (passes accepts f)) files = None ->
  2 <= length files ->
  drop accepts files
  = Some {| validationError := Some "Too many files"; uploaded := [] |}.
Proof.
  rewrite find_first_of_filter. intros Hnone Hlen.
  pose proof (filter_split_length File (passes accepts) files) as Hsplit.
  destruct (filter (fun f => negb (passes accepts f)) files) as [|g gs] eqn:Hrej;
    [|discriminate].
  unfold drop, sort_drop. rewrite Hrej. simpl in Hsplit.
  destruct (filter (passes accepts) files) as [|a [|b l]]; simpl in Hsplit; try lia.
  reflexivity.
Qed.

End DropMessages.

(** X8. What a drop of any number of files leaves in [validationError]:
    if some file is refused by the dropzone, the message for the first
    such file in the drop (the invalid-type message when its type is
    refused, else the too-large message); if none is refused and two or
    more files were dropped, the dropzone's own "Too many files"; and
    nothing for an empty drop.  In all three cases no file is passed to
    [onUpload]. *)
Theorem drop_message_by_first_refused_file :
  forall (accepts : ImageUpload.File -> bool) (files : list ImageUpload.File),
    (forall g,
       find (fun f => negb (ImageUpload.passes accepts f)) files = Some g ->
       ImageUpload.drop accepts files
       = Some {| ImageUpload.validationError :=
                   Some (if accepts g
                         then "File is too large. Maximum size is 10MB."
                         else "Invalid file type. Only JPG and PNG images are accepted.");
                 ImageUpload.uploaded := [] |})
    /\ (find (fun f => negb (ImageUpload.passes accepts f)) files = None ->
        2 <= length files ->
        ImageUpload.drop accepts files
        = Some {| ImageUpload.validationError := Some "Too many files";
                  ImageUpload.uploaded := [] |})
    /\ (files = [] ->
        ImageUpload.drop accepts files
        = Some {| ImageUpload.validationError := None;
                  ImageUpload.uploaded := [] |}).
Proof.
  intros accepts files. split; [|split].
  - intros g Hg. apply (drop_with_refused accepts files g Hg).
  - apply drop_too_many.
  - intros ->. reflexivity.
Qed.

Lemma drop_message_by_first_refused_file_witness :
  let jpg := {| ImageUpload.file_name := "ktp.jpg";
                ImageUpload.file_type := "image/jpeg";
                ImageUpload.file_size := 13 |} in
  let big := {| ImageUpload.file_name := "scan.png";
                ImageUpload.file_type := "image/png";
                ImageUpload.file_size := 20000000 |} in
  let txt := {| ImageUpload.file_name := "notes.txt";
                ImageUpload.file_type := "text/plain";
                ImageUpload.file_size := 5 |} in
  ImageUpload.drop ImageUpload.accepts_image [jpg; big; txt]
  = Some {| ImageUpload.validationError :=
              Some "File is too large. Maximum size is 10MB.";
            ImageUpload.uploaded := [] |}
  /\ ImageUpload.drop ImageUpload.accepts_image [jpg; jpg]
     = Some {| ImageUpload.validationError := Some "Too many files";
               ImageUpload.uploaded := [] |}
  /\ ImageUpload.drop ImageUpload.accepts_image []
     = Some {| ImageUpload.validationError := None; ImageUpload.uploaded := [] |}.
Proof.
  intros jpg big txt. split; [|split].
  - apply (proj1 (drop_message_by_first_refused_file
                    ImageUpload.accepts_image [jpg; big; txt]) big).
    reflexivity.
  - apply (proj1 (proj2 (drop_message_by_first_refused_file
                           ImageUpload.accepts_image [jpg; jpg])));
      [reflexivity | simpl; lia].
  - apply (proj2 (proj2 (drop_message_by_first_refused_file
                           ImageUpload.accepts_image []))).
    reflexivity.
Defined.

(* ===================================================================== *)
(** * More on App *)
(* ===================================================================== *)

Section AppFacts.
Import App.

Variable API_URL : string.
Variable net : Request -> Settlement.
Variable dataURL : File -> option string.
Variable loadend_during : Request -> bool.

(** The promise of [handleUpload] is always fulfilled. *)
Lemma handleUpload_completes (file : File) (w : World) :
  fst (run (handleUpload API_URL net dataURL loadend_during file) w) = inr tt.
Proof. run_upload net loadend_during; reflexivity. Qed.

(** With nothing truthy in the response, the message is the error's
    own. *)
Lemma errorMessage_falls_back (e : AxiosError) :
  JS.truthy (response_error e) = false ->
  JS.truthy (response_detail_error e) = false ->
  errorMessage e = Some (message e).
Proof.
  intros H1 H2. unfold errorMessage, JS.or. rewrite H1, H2. reflexivity.
Qed.

End AppFacts.

(** X9. "Proses KTP Lain" brings back the freshly mounted page: whenever
    the button is on the page, that is whenever a record is displayed,
    the page after [handleReset] is the page of the initial state, with
    the upload form, no preview and no error box.  Resetting twice is
    resetting once. *)
Theorem handleReset_gives_initial_page :
  forall (s : App.State) (display : KTPDisplay.View),
    App.panel (App.page s) = App.KTPPanel display ->
    App.page (App.handleReset s) = App.page App.initialState
    /\ App.handleReset s = App.initialState
    /\ App.panel (App.page (App.handleReset s)) = App.UploadPanel None
    /\ App.errorBox (App.page (App.handleReset s)) = None
    /\ App.handleReset (App.handleReset s) = App.handleReset s.
Proof.
  intros [k l e p] display. unfold App.page, App.handleReset. simpl.
  destruct l; [discriminate|]. intros _. repeat split; reflexivity.
Qed.

Lemma handleReset_gives_initial_page_witness :
  let s := {| App.ktpData := Some KTP.mockKTPData; App.loading := false;
              App.error := Some "old message";
              App.imagePreview := Some "data:image/jpeg;base64," |} in
  App.page (App.handleReset s) = App.page App.initialState.
Proof.
  intros s.
  apply (handleReset_gives_initial_page s (KTPDisplay.render KTP.mockKTPData)).
  reflexivity.
Defined.

(** X10. A successful run leaves no error behind: when both requests
    resolve and the extract response has a body, [error] is [null] at the
    end whatever it was before, so the error box is gone.  When that body
    has no [ktp_data] member, the record held before is dropped as well
    and the page is back on the upload form without any message. *)
Theorem handleUpload_success_clears_error :
  forall (API_URL : string) (net : App.Request -> App.Settlement)
         (dataURL : App.File -> option string)
         (loadend_during : App.Request -> bool)
         (file : App.File) (w : App.World)
         (r1 r2 : App.Response) (body : App.Body),
    let formData := [("file", file)] in
    let upload := {| App.method := "POST"; App.url := API_URL ++ "/upload";
                     App.payload := formData |} in
    let extract := {| App.method := "POST"; App.url := API_URL ++ "/extract";
                      App.payload := formData |} in
    let w' := snd (App.run (App.handleUpload API_URL net dataURL loadend_during file) w) in
    net upload = App.Resolved r1 ->
    net extract = App.Resolved r2 ->
    App.data r2 = Some body ->
    App.error (App.app w') = None
    /\ App.errorBox (App.page (App.app w')) = None
    /\ (App.ktp_data body = None ->
        App.ktpData (App.app w') = None
        /\ exists preview, App.panel (App.page (App.app w')) = App.UploadPanel preview).
Proof.
  intros API_URL net dataURL loadend_during file w r1 r2 body
         formData upload extract w' H1 H2 Hbody.
  subst w' upload extract formData.
  assert (He : App.error (App.app (snd (App.run (App.handleUpload API_URL net dataURL
                                                  loadend_during file) w))) = None).
  { run_upload net loadend_during; try reflexivity; congruence. }
  split; [exact He|]. split.
  - unfold App.page. simpl. rewrite He. reflexivity.
  - intros Hnone.
    assert (Hk : App.ktpData (App.app (snd (App.run (App.handleUpload API_URL net dataURL
                                                  loadend_during file) w))) = None).
    { rewrite handleUpload_ktpData, H1, H2, Hbody. exact Hnone. }
    split; [exact Hk|].
    unfold App.page. simpl. rewrite Hk.
    assert (Hl : App.loading (App.app (snd (App.run (App.handleUpload API_URL net dataURL
                                                  loadend_during file) w))) = false).
    { run_upload net loadend_during; reflexivity. }
    rewrite Hl. eexists. reflexivity.
Qed.

Lemma handleUpload_success_clears_error_witness :
  let empty := {| App.data := Some {| App.body_error := None; App.body_detail := None;
                                      App.ktp_data := None |} |} in
  let net := fun _ : App.Request => App.Resolved empty in
  let file := {| ImageUpload.file_name := "ktp.jpg";
                 ImageUpload.file_type := "image/jpeg";
                 ImageUpload.file_size := 13 |} in
  let before :=
    {| App.app := {| App.ktpData := Some KTP.mockKTPData; App.loading := false;
                     App.error := Some "old message"; App.imagePreview := None |};
       App.reading := []; App.events := [] |} in
  let w' := snd (App.run (App.handleUpload "/api" net (fun _ => Some "data:new")
                            (fun _ => true) file) before) in
  App.error (App.app w') = None /\ App.ktpData (App.app w') = None.
Proof.
  intros empty net file before w'.
  destruct (handleUpload_success_clears_error "/api" net (fun _ => Some "data:new")
              (fun _ => true) file before empty empty
              {| App.body_error := None; App.body_detail := None; App.ktp_data := None |}
              eq_refl eq_refl eq_refl) as (He & _ & Hk).
  split; [exact He|]. apply Hk. reflexivity.
Defined.

(** X11. When [handleUpload] has completed, the image preview is on the
    page in one case only: both requests resolved and the extract
    response had a body without [ktp_data].  After a failure the preview
    has been cleared, and after an extraction that returned a record the
    record is shown in place of the upload form. *)
Theorem preview_hidden_when_upload_completes :
  forall (API_URL : string) (net : App.Request -> App.Settlement)
         (dataURL : App.File -> option string)
         (loadend_during : App.Request -> bool)
         (file : App.File) (w : App.World) (preview : string),
    let formData := [("file", file)] in
    let upload := {| App.method := "POST"; App.url := API_URL ++ "/upload";
                     App.payload := formData |} in
    let extract := {| App.method := "POST"; App.url := API_URL ++ "/extract";
                      App.payload := formData |} in
    let w' := snd (App.run (App.handleUpload API_URL net dataURL loadend_during file) w) in
    App.panel (App.page (App.app w')) = App.UploadPanel (Some preview) ->
    exists r1 r2 body,
      net upload = App.Resolved r1
      /\ net extract = App.Resolved r2
      /\ App.data r2 = Some body
      /\ App.ktp_data body = None.
Proof.
  intros API_URL net dataURL loadend_during file w preview
         formData upload extract w'.
  subst w' upload extract formData. unfold App.page. simpl.
  run_upload net loadend_during;
    try (match goal with
         | |- context [match ?x with Some _ => _ | None => App.UploadPanel None end] =>
             destruct x; discriminate
         end);
    match goal with
    | |- context [App.ktp_data ?b] =>
        destruct (App.ktp_data b) eqn:?; [discriminate|]
    end;
    intros _; eexists _, _, _; repeat split; (reflexivity || eassumption).
Qed.

Lemma preview_hidden_when_upload_completes_witness :
  let empty := {| App.data := Some {| App.body_error := None; App.body_detail := None;
                                      App.ktp_data := None |} |} in
  let net := fun _ : App.Request => App.Resolved empty in
  let file := {| ImageUpload.file_name := "ktp.jpg";
                 ImageUpload.file_type := "image/jpeg";
                 ImageUpload.file_size := 13 |} in
  exists r1 r2 body,
    net {| App.method := "POST"; App.url := "/api" ++ "/upload";
           App.payload := [("file", file)] |} = App.Resolved r1
    /\ net {| App.method := "POST"; App.url := "/api" ++ "/extract";
              App.payload := [("file", file)] |} = App.Resolved r2
    /\ App.data r2 = Some body
    /\ App.ktp_data body = None.
Proof.
  intros empty net file.
  apply (preview_hidden_when_upload_completes "/api" net (fun _ => Some "data:new")
           (fun _ => true) file
           {| App.app := App.initialState; App.reading := []; App.events := [] |}
           "data:new").
  reflexivity.
Defined.

(** X12. A failed request whose answer carries nothing the handler can
    use is reported with the axios error's own message: that is so when
    there is no response, when the body is [null], and when the body has
    no truthy [error] and its [detail] is absent, is a plain text, or is
    an object without a truthy [error].  If that message is empty too,
    nothing is displayed although the upload failed. *)
Theorem failure_without_response_message_shows_axios_message :
  forall (API_URL : string) (net : App.Request -> App.Settlement)
         (dataURL : App.File -> option string)
         (loadend_during : App.Request -> bool)
         (file : App.File) (w : App.World) (e : App.AxiosError),
    let formData := [("file", file)] in
    let upload := {| App.method := "POST"; App.url := API_URL ++ "/upload";
                     App.payload := formData |} in
    let extract := {| App.method := "POST"; App.url := API_URL ++ "/extract";
                      App.payload := formData |} in
    let w' := snd (App.run (App.handleUpload API_URL net dataURL loadend_during file) w) in
    net upload = App.Rejected (App.Axios e)
    \/ (exists r, net upload = App.Resolved r
                  /\ net extract = App.Rejected (App.Axios e)) ->
    App.response e = None
    \/ App.response e = Some {| App.data := None |}
    \/ (exists body,
          App.response e = Some {| App.data := Some body |}
          /\ JS.truthy (App.body_error body) = false
          /\ (App.body_detail body = None
              \/ (exists text, App.body_detail body = Some (App.DetailText text))
              \/ (exists v, App.body_detail body = Some (App.DetailObject v)
                            /\ JS.truthy v = false))) ->
    App.error (App.app w') = Some (App.message e)
    /\ App.errorBox (App.page (App.app w'))
       = if App.message e =? "" then None else Some (App.message e).
Proof.
  intros API_URL net dataURL loadend_during file w e
         formData upload extract w' Hfail Hshape.
  assert (Hm : App.errorMessage e = Some (App.message e)).
  { apply errorMessage_falls_back;
      unfold App.response_error, App.response_detail_error;
      destruct Hshape as [-> | [-> | (body & -> & Hb & Hd)]];
      try reflexivity; simpl; [exact Hb|].
    destruct Hd as [-> | [(text & ->) | (v & -> & Hv)]];
      [reflexivity | reflexivity | exact Hv]. }
  assert (He : App.error (App.app w') = Some (App.message e)).
  { destruct (handleUpload_caught API_URL net dataURL loadend_during file w (App.Axios e))
      as (_ & _ & Herr).
    - destruct Hfail as [Hu | Hx]; [left; exact Hu | right; left; exact Hx].
    - subst w'. rewrite Herr. exact Hm. }
  split; [exact He|].
  unfold App.page. simpl. rewrite He. unfold JS.guard. simpl.
  destruct (App.message e =? ""); reflexivity.
Qed.

(** The theorem on a server that answers in the default shape of its
    framework, with the message as the text of [detail]. *)
Lemma failure_without_response_message_shows_axios_message_witness :
  let body := {| App.body_error := None;
                 App.body_detail := Some (App.DetailText "File too large");
                 App.ktp_data := None |} in
  let refused := {| App.response := Some {| App.data := Some body |};
                    App.message := "Request failed with status code 413" |} in
  let net := fun _ : App.Request => App.Rejected (App.Axios refused) in
  let file := {| ImageUpload.file_name := "ktp.jpg";
                 ImageUpload.file_type := "image/jpeg";
                 ImageUpload.file_size := 13 |} in
  let w' := snd (App.run (App.handleUpload "/api" net (fun _ => None)
                            (fun _ => false) file)
                   {| App.app := App.initialState; App.reading := [];
                      App.events := [] |}) in
  App.errorBox (App.page (App.app w')) = Some "Request failed with status code 413".
Proof.
  intros body refused net file w'.
  apply (failure_without_response_message_shows_axios_message "/api" net
           (fun _ => None) (fun _ => false) file
           {| App.app := App.initialState; App.reading := []; App.events := [] |}
           refused).
  - left. reflexivity.
  - right. right. exists body. split; [reflexivity|]. split; [reflexivity|].
    right. left. exists "File too large". reflexivity.
Defined.

(** X13. Clearing the preview in the [catch] clause does not stop the
    file read: when the only read in flight ends after a failed upload
    has been handled, its [onloadend] puts the data URL back into
    [imagePreview], so the upload form then shows the preview of the
    failed file together with the error message. *)
Theorem late_loadend_shows_preview_beside_error :
  forall (API_URL : string) (net : App.Request -> App.Settlement)
         (dataURL : App.File -> option string)
         (file : App.File) (w : App.World) (t : App.Thrown),
    let formData := [("file", file)] in
    let upload := {| App.method := "POST"; App.url := API_URL ++ "/upload";
                     App.payload := formData |} in
    let extract := {| App.method := "POST"; App.url := API_URL ++ "/extract";
                      App.payload := formData |} in
    let w' := snd (App.run (App.handleUpload API_URL net dataURL (fun _ => false) file) w) in
    App.reading w = [] ->
    net upload = App.Rejected t
    \/ (exists r, net upload = App.Resolved r /\ net extract = App.Rejected t) ->
    App.imagePreview (App.app w') = None
    /\ App.reading w' = [dataURL file]
    /\ App.imagePreview (App.app (App.loadend w')) = dataURL file
    /\ App.error (App.app (App.loadend w')) = App.error (App.app w')
    /\ (App.ktpData (App.app w) = None ->
        App.panel (App.page (App.app (App.loadend w')))
          = App.UploadPanel (JS.guard (dataURL file))
        /\ App.errorBox (App.page (App.app (App.loadend w')))
           = JS.guard (App.error (App.app w'))).
Proof.
  intros API_URL net dataURL file w t formData upload extract w' Hreading Hfail.
  subst w' upload extract formData.
  destruct w as [s reads log]. simpl in Hreading. subst reads.
  unfold App.page, App.loadend.
  destruct Hfail as [H | (r & H1 & H2)];
    unfold App.run, App.handleUpload, App.try_finally, App.post; cbn;
    [rewrite H | rewrite H1; cbn; rewrite H2]; cbn;
    destruct t; cbn;
    (repeat split; try reflexivity);
    match goal with
    | Hk : App.ktpData _ = None |- _ => simpl in Hk; rewrite Hk; reflexivity
    end.
Qed.

Lemma late_loadend_shows_preview_beside_error_witness :
  let refused := {| App.response := None; App.message := "Network Error" |} in
  let net := fun _ : App.Request => App.Rejected (App.Axios refused) in
  let file := {| ImageUpload.file_name := "ktp.jpg";
                 ImageUpload.file_type := "image/jpeg";
                 ImageUpload.file_size := 13 |} in
  let w' := snd (App.run (App.handleUpload "/api" net
                            (fun _ => Some "data:image/jpeg;base64,ZHVtbXk=")
                            (fun _ => false) file)
                   {| App.app := App.initialState; App.reading := [];
                      App.events := [] |}) in
  App.panel (App.page (App.app (App.loadend w')))
    = App.UploadPanel (Some "data:image/jpeg;base64,ZHVtbXk=")
  /\ App.errorBox (App.page (App.app (App.loadend w'))) = Some "Network Error".
Proof.
  intros refused net file w'.
  destruct (late_loadend_shows_preview_beside_error "/api" net
              (fun _ => Some "data:image/jpeg;base64,ZHVtbXk=") file
              {| App.app := App.initialState; App.reading := []; App.events := [] |}
              (App.Axios refused)) as (_ & _ & _ & _ & H).
  - reflexivity.
  - left. reflexivity.
  - apply H. reflexivity.
Defined.

(** Running a computation and then returning leaves the world the
    computation left. *)
Lemma run_then_ret (c : App.Async unit) (w : App.World) :
  snd (App.run (c ;; ret tt) w) = snd (App.run c w).
Proof.
  unfold App.run. simpl.
  destruct (runState (unEitherT c) w) as [[t|u] w']; reflexivity.
Qed.

(** X14. [ImageUpload] is mounted with [handleUpload] as its [onUpload].
    A drop of exactly one file that passes the dropzone runs [handleUpload]
    once, on that file, and leaves no validation message.  Any other drop
    (no file, a refused file, several files) reaches neither the handler
    nor the network: the application state, the reads in flight and the
    request log stay exactly as they were. *)
Theorem only_a_single_passing_file_reaches_handleUpload :
  forall (API_URL : string) (net : App.Request -> App.Settlement)
         (dataURL : App.File -> option string)
         (loadend_during : App.Request -> bool)
         (accepts : ImageUpload.File -> bool) (w : App.World),
    (forall f,
       ImageUpload.passes accepts f = true ->
       App.drop_on_form API_URL net dataURL loadend_during accepts [f] w
       = (Some None,
          snd (App.run (App.handleUpload API_URL net dataURL loadend_during f) w)))
    /\ (forall files,
          ~ (exists f, files = [f] /\ ImageUpload.passes accepts f = true) ->
          snd (App.drop_on_form API_URL net dataURL loadend_during accepts files w) = w).
Proof.
  intros API_URL net dataURL loadend_during accepts w. split.
  - intros f Hp. unfold App.drop_on_form. rewrite drop_single.
    rewrite passes_iff in Hp. apply andb_prop in Hp. destruct Hp as [Ha Hs].
    rewrite Ha, Z.gtb_ltb, Z.ltb_antisym, Hs. simpl negb. cbv iota.
    simpl ImageUpload.validationError. simpl ImageUpload.uploaded.
    f_equal. cbn [App.onUpload_calls]. apply run_then_ret.
  - intros files Hnot. unfold App.drop_on_form.
    destruct files as [|f [|g rest]].
    + reflexivity.
    + rewrite drop_single.
      assert (Hp : ImageUpload.passes accepts f = false).
      { destruct (ImageUpload.passes accepts f) eqn:E; [|reflexivity].
        exfalso. apply Hnot. exists f. auto. }
      rewrite passes_iff in Hp.
      destruct (accepts f); [|reflexivity].
      simpl in Hp. rewrite Z.gtb_ltb, Z.ltb_antisym, Hp. reflexivity.
    + destruct (drop_several accepts (f :: g :: rest)) as (text & ->);
        [simpl; lia | reflexivity].
Qed.

Lemma only_a_single_passing_file_reaches_handleUpload_witness :
  let net := fun _ : App.Request =>
               App.Rejected (App.Axios {| App.response := None;
                                          App.message := "Network Error" |}) in
  let jpg := {| ImageUpload.file_name := "ktp.jpg";
                ImageUpload.file_type := "image/jpeg";
                ImageUpload.file_size := 13 |} in
  let txt := {| ImageUpload.file_name := "notes.txt";
                ImageUpload.file_type := "text/plain";
                ImageUpload.file_size := 5 |} in
  let w := {| App.app := App.initialState; App.reading := []; App.events := [] |} in
  length (App.events (snd (App.drop_on_form "/api" net (fun _ => None) (fun _ => false)
                             ImageUpload.accepts_image [jpg] w))) = 3
  /\ snd (App.drop_on_form "/api" net (fun _ => None) (fun _ => false)
            ImageUpload.accepts_image [txt] w) = w
  /\ snd (App.drop_on_form "/api" net (fun _ => None) (fun _ => false)
            ImageUpload.accepts_image [jpg; txt] w) = w.
Proof.
  intros net jpg txt w.
  destruct (only_a_single_passing_file_reaches_handleUpload "/api" net (fun _ => None)
              (fun _ => false) ImageUpload.accepts_image w) as [Hone Hother].
  split; [|split].
  - rewrite (Hone jpg); reflexivity.
  - apply Hother. intros (f & Hf & Hp). injection Hf as <-. discriminate Hp.
  - apply Hother. intros (f & Hf & _). discriminate Hf.
Defined.
